(** * The tool adapter of camel_terminal_toolkit/server.py

    A shallow embedding of the two request handlers of the server
    ([list_tools] and [call_tool]) and of the lazily built toolkit
    ([initialize_toolkit]), followed by the properties of the schema
    inference, of the dispatch and of the registry life cycle.

    Python objects are modelled by what the handlers observe of them:
    a callable by its [__name__], its [__doc__], the parameters of its
    signature and what a call does; an exception by its class, by whether
    the class derives from [Exception], and by the text [str(e)] gives. *)

From Stdlib Require Import String Ascii List Bool Arith ZArith Lia.
From Stdlib Require Import DecimalString.
Import ListNotations.

Open Scope list_scope.
Open Scope string_scope.

(* ------------------------------------------------------------------ *)
(** * Python strings *)
(* ------------------------------------------------------------------ *)

Module PyStr.

(** A character is a code point below 256.  [str.isspace] holds on
    U+0009..U+000D, U+001C..U+001F, U+0020, U+0085 and U+00A0 there. *)
Definition isspace (c : ascii) : bool :=
  let n := nat_of_ascii c in
  (((9 <=? n) && (n <=? 13)) || ((28 <=? n) && (n <=? 32))
   || (n =? 133) || (n =? 160))%nat.

Definition newline : ascii := ascii_of_nat 10.

(** [s.split('\n')[0]]: the text before the first line feed. *)
Fixpoint first_line (s : string) : string :=
  match s with
  | EmptyString => EmptyString
  | String c rest =>
      if Ascii.eqb c newline then EmptyString else String c (first_line rest)
  end.

Fixpoint lstrip (s : string) : string :=
  match s with
  | EmptyString => EmptyString
  | String c rest => if isspace c then lstrip rest else s
  end.

Fixpoint rstrip (s : string) : string :=
  match s with
  | EmptyString => EmptyString
  | String c rest =>
      match rstrip rest with
      | EmptyString => if isspace c then EmptyString else String c EmptyString
      | kept => String c kept
      end
  end.

(** [s.strip()] *)
Definition strip (s : string) : string := rstrip (lstrip s).

(** No character of [s] is white space. *)
Fixpoint spaceless (s : string) : bool :=
  match s with
  | EmptyString => true
  | String c rest => negb (isspace c) && spaceless rest
  end.

(** Truth value of a string: empty is false. *)
Definition truthy (s : string) : bool :=
  match s with EmptyString => false | _ => true end.

End PyStr.

(* ------------------------------------------------------------------ *)
(** * Python values, exceptions, dictionaries *)
(* ------------------------------------------------------------------ *)

(** The values a tool returns or a default holds.  [VObject t] is an
    object of any other class; [t] is the text [str] gives for it. *)
Inductive value : Type :=
| VNone
| VBool (b : bool)
| VInt (z : Z)
| VStr (s : string)
| VObject (text : string).

(** [str(v)] *)
Definition py_str (v : value) : string :=
  match v with
  | VNone => "None"
  | VBool true => "True"
  | VBool false => "False"
  | VInt z => NilZero.string_of_int (Z.to_int z)
  | VStr s => s
  | VObject t => t
  end.

(** Where a class sits under [BaseException]: below [Exception], or
    beside it ([KeyboardInterrupt], [SystemExit], [GeneratorExit],
    [asyncio.CancelledError]). *)
Inductive exc_base : Type := UnderException | UnderBaseExceptionOnly.

Record PyExc : Type := mkExc {
  exc_class : string;
  exc_base_of : exc_base;
  exc_str : string            (* str(e) *)
}.

(** [isinstance(e, Exception)], the test of [except Exception]. *)
Definition is_Exception (e : PyExc) : bool :=
  match exc_base_of e with
  | UnderException => true
  | UnderBaseExceptionOnly => false
  end.

Definition ValueError (msg : string) : PyExc := mkExc "ValueError" UnderException msg.
Definition AttributeError (msg : string) : PyExc :=
  mkExc "AttributeError" UnderException msg.
Definition KeyboardInterrupt : PyExc :=
  mkExc "KeyboardInterrupt" UnderBaseExceptionOnly "".

(** A [dict] with string keys: insertion ordered, assignment to a key
    already present replaces the value in place. *)
Module Dict.
Section Defs.
Context {V : Type}.

Definition t := list (string * V).

Fixpoint set (d : t) (k : string) (v : V) : t :=
  match d with
  | [] => [(k, v)]
  | (k', v') :: rest =>
      if String.eqb k' k then (k, v) :: rest else (k', v') :: set rest k v
  end.

Fixpoint get (d : t) (k : string) : option V :=
  match d with
  | [] => None
  | (k', v') :: rest => if String.eqb k' k then Some v' else get rest k
  end.

Definition keys (d : t) : list string := map fst d.
End Defs.
Arguments t : clear implicits.
End Dict.

Definition kwargs : Type := Dict.t value.

(* ------------------------------------------------------------------ *)
(** * Outcomes and the handler monad *)
(* ------------------------------------------------------------------ *)

Inductive outcome (A : Type) : Type :=
| Return (a : A)
| Raise (e : PyExc).
Arguments Return {A} a.
Arguments Raise {A} e.

(** A computation over the module's globals: it ends by returning or by
    raising, and the globals it wrote stay written either way. *)
Definition M (S A : Type) : Type := S -> outcome A * S.

Definition ret {S A} (a : A) : M S A := fun st => (Return a, st).

Definition raise {S A} (e : PyExc) : M S A := fun st => (Raise e, st).

Definition bind {S A B} (m : M S A) (k : A -> M S B) : M S B :=
  fun st =>
    match m st with
    | (Return a, st') => k a st'
    | (Raise e, st') => (Raise e, st')
    end.

Definition returned {A} (r : outcome A) : bool :=
  match r with
  | Return _ => true
  | Raise _ => false
  end.

Definition gets {S A} (f : S -> A) : M S A := fun st => (Return (f st), st).

Definition modify {S} (f : S -> S) : M S unit := fun st => (Return tt, f st).

(** [try: body  except Exception as e: handler(e)] *)
Definition try_except {S A} (body : M S A) (handler : PyExc -> M S A) : M S A :=
  fun st =>
    match body st with
    | (Return a, st') => (Return a, st')
    | (Raise e, st') =>
        if is_Exception e then handler e st' else (Raise e, st')
    end.

Declare Scope py_scope.
Delimit Scope py_scope with py.
Notation "x <- m ;; k" := (bind m (fun x => k))
  (at level 61, m at next level, right associativity) : py_scope.
Notation "m ;;; k" := (bind m (fun _ => k))
  (at level 61, right associativity) : py_scope.

(** A [for] loop that collects one result per element and stops at the
    first exception. *)
Fixpoint for_each {S A B} (f : A -> M S B) (xs : list A) : M S (list B) :=
  match xs with
  | [] => ret []
  | x :: rest =>
      (y <- f x ;; ys <- for_each f rest ;; ret (y :: ys))%py
  end.

(* ------------------------------------------------------------------ *)
(** * Signatures, as [inspect.signature] reports them *)
(* ------------------------------------------------------------------ *)

Inductive param_kind : Type :=
| POSITIONAL_ONLY
| POSITIONAL_OR_KEYWORD
| VAR_POSITIONAL
| KEYWORD_ONLY
| VAR_KEYWORD.

(** A parameter's annotation: absent ([inspect.Parameter.empty]), one of
    the classes the server tests for, or anything else. *)
Inductive param_annotation : Type :=
| Ann_empty
| Ann_str
| Ann_int
| Ann_bool
| Ann_other (repr : string).

(** [p_default = None] is [inspect.Parameter.empty]. *)
Record Param : Type := mkParam {
  p_name : string;
  p_kind : param_kind;
  p_annotation : param_annotation;
  p_default : option value
}.

(** The entry of one parameter in ["properties"]; the key ["default"] is
    present exactly when [pi_default] is [Some]. *)
Record ParamInfo : Type := mkParamInfo {
  pi_type : string;
  pi_description : string;
  pi_default : option value
}.

Record InputSchema : Type := mkInputSchema {
  schema_type : string;
  properties : Dict.t ParamInfo;
  required : list string
}.

(** [mcp.types.Tool] *)
Record Tool : Type := mkTool {
  name : string;
  description : string;
  inputSchema : InputSchema
}.

(** [mcp.types.TextContent] *)
Record TextContent : Type := mkTextContent {
  content_type : string;
  text : string
}.

Inductive log_level : Type := INFO | ERROR.

Definition ann_eqb (a b : param_annotation) : bool :=
  match a, b with
  | Ann_empty, Ann_empty | Ann_str, Ann_str
  | Ann_int, Ann_int | Ann_bool, Ann_bool => true
  | Ann_other r, Ann_other r' => String.eqb r r'
  | _, _ => false
  end.

(** Lines 61 and 65-71: the schema type of a parameter. *)
Definition param_type_of (param : Param) : string :=
  if negb (ann_eqb (p_annotation param) Ann_empty) then
    if ann_eqb (p_annotation param) Ann_str then "string"
    else if ann_eqb (p_annotation param) Ann_int then "number"
    else if ann_eqb (p_annotation param) Ann_bool then "boolean"
    else "string"
  else "string".

(** [param.default == inspect.Parameter.empty] *)
Definition default_is_empty (param : Param) : bool :=
  match p_default param with
  | None => true
  | Some _ => false
  end.

(** Lines 61-77: the [param_info] dictionary of one parameter. *)
Definition param_info_of (param : Param) : ParamInfo :=
  {| pi_type := param_type_of param;
     pi_description := "Parameter " ++ p_name param;
     pi_default := if negb (default_is_empty param) then p_default param else None |}.

(** Lines 60-79: the loop over the signature, from any dictionary. *)
Definition fill (acc : Dict.t ParamInfo) (sig_parameters : list Param)
  : Dict.t ParamInfo :=
  fold_left
    (fun parameters param => Dict.set parameters (p_name param) (param_info_of param))
    sig_parameters acc.

(** Lines 58-79: [parameters = {}] and the loop that fills it. *)
Definition build_parameters (sig_parameters : list Param) : Dict.t ParamInfo :=
  fill [] sig_parameters.

(** Lines 87-90: the list comprehension of ["required"]. *)
Definition build_required (sig_parameters : list Param) : list string :=
  map p_name (filter default_is_empty sig_parameters).

(** [doc or fallback] on an optional string: [None] and [""] are false. *)
Definition doc_or (doc : option string) (fallback : string) : string :=
  match doc with
  | Some d => if PyStr.truthy d then d else fallback
  | None => fallback
  end.

(** The text of a successful result (lines 124-127). *)
Definition result_text (v : value) : string :=
  match v with
  | VStr s => s
  | other => py_str other
  end.

Definition error_text (name : string) (e : PyExc) : string :=
  "Error calling tool " ++ name ++ ": " ++ exc_str e.

(* ------------------------------------------------------------------ *)
(** * The server *)
(* ------------------------------------------------------------------ *)

Section Server.

(** Whatever the tools and the toolkit constructor read and write
    outside the module: files, processes, the terminal. *)
Variable World : Type.

Inductive callable_form : Type := Function | BoundMethod.

(** A callable, a function or a bound method (both are true in a
    condition): [c_params] are the parameters its [def] declares (for
    a bound method the receiver comes first), [c_call] is what a call
    with keyword arguments does. *)
Record Callable : Type := mkCallable {
  c_form : callable_form;
  c_name : string;                 (* __name__ *)
  c_doc : option string;           (* __doc__ *)
  c_params : list Param;
  c_call : kwargs -> World -> outcome value * World
}.

Record FunctionTool : Type := mkFunctionTool { func : Callable }.

(** A toolkit instance, seen through [get_tools()].  The class defines
    neither [__bool__] nor [__len__]: an instance is true. *)
Record Toolkit : Type := mkToolkit { tk_tools : list FunctionTool }.

(** The constructor [TerminalToolkit( **kwargs )]. *)
Variable TerminalToolkit : kwargs -> World -> outcome Toolkit * World.

(** The module's globals, the records the logger received, and one
    entry per constructor call made so far: its arguments and whether
    it returned an instance (kept for the properties; the code does
    not read it). *)
Record State : Type := mkState {
  terminal_toolkit : option Toolkit;
  toolkit_kwargs : kwargs;
  log : list (log_level * string);
  factory_calls : list (kwargs * bool);
  world : World
}.

Definition initial_state (w : World) : State :=
  {| terminal_toolkit := None; toolkit_kwargs := [];
     log := []; factory_calls := []; world := w |}.

Definition set_terminal_toolkit (tk : option Toolkit) (st : State) : State :=
  {| terminal_toolkit := tk; toolkit_kwargs := toolkit_kwargs st;
     log := log st; factory_calls := factory_calls st; world := world st |}.

Definition set_toolkit_kwargs (kw : kwargs) (st : State) : State :=
  {| terminal_toolkit := terminal_toolkit st; toolkit_kwargs := kw;
     log := log st; factory_calls := factory_calls st; world := world st |}.

Definition set_world (w : World) (st : State) : State :=
  {| terminal_toolkit := terminal_toolkit st; toolkit_kwargs := toolkit_kwargs st;
     log := log st; factory_calls := factory_calls st; world := w |}.

Definition add_log (lvl : log_level) (msg : string) (st : State) : State :=
  {| terminal_toolkit := terminal_toolkit st; toolkit_kwargs := toolkit_kwargs st;
     log := log st ++ [(lvl, msg)]; factory_calls := factory_calls st;
     world := world st |}.

Definition add_factory_call (kw : kwargs) (ok : bool) (st : State) : State :=
  {| terminal_toolkit := terminal_toolkit st; toolkit_kwargs := toolkit_kwargs st;
     log := log st; factory_calls := factory_calls st ++ [(kw, ok)];
     world := world st |}.

(** [logger.info(msg)], [logger.error(msg)] *)
Definition logger (lvl : log_level) (msg : string) : M State unit :=
  modify (add_log lvl msg).

(** [TerminalToolkit( **toolkit_kwargs )] *)
Definition construct_toolkit : M State Toolkit :=
  fun st =>
    let (r, w) := TerminalToolkit (toolkit_kwargs st) (world st) in
    (r, set_world w (add_factory_call (toolkit_kwargs st) (returned r) st)).

(** [target_func( **arguments )] *)
Definition invoke (f : Callable) (arguments : kwargs) : M State value :=
  fun st =>
    let (r, w) := c_call f arguments (world st) in
    (r, set_world w st).

(** [not terminal_toolkit] *)
Definition not_toolkit (tk : option Toolkit) : bool :=
  match tk with
  | None => true
  | Some _ => false
  end.

(** Lines 33-38. *)
Definition initialize_toolkit : M State unit :=
  (tk <- gets terminal_toolkit ;;
   if not_toolkit tk then
     logger INFO "Initializing Terminal Toolkit" ;;;
     built <- construct_toolkit ;;
     modify (set_terminal_toolkit (Some built))
   else ret tt)%py.

(** Lines 44-45 and 101-102, the first two lines of both handlers:
    [if not terminal_toolkit: initialize_toolkit()]. *)
Definition ensure_toolkit : M State unit :=
  (tk <- gets terminal_toolkit ;;
   if not_toolkit tk then initialize_toolkit else ret tt)%py.

(** [terminal_toolkit.get_tools()] *)
Definition get_tools : M State (list FunctionTool) :=
  (tk <- gets terminal_toolkit ;;
   match tk with
   | Some t => ret (tk_tools t)
   | None => raise (AttributeError "'NoneType' object has no attribute 'get_tools'")
   end)%py.

(** [inspect.signature(func)]: the declared parameters; for a bound
    method the first one is dropped when it is positional, kept when
    it is [*args], and anything else is an invalid method signature. *)
Definition inspect_signature (f : Callable) : outcome (list Param) :=
  match c_form f with
  | Function => Return (c_params f)
  | BoundMethod =>
      match c_params f with
      | [] => Raise (ValueError "invalid method signature")
      | first :: rest =>
          match p_kind first with
          | POSITIONAL_ONLY | POSITIONAL_OR_KEYWORD => Return rest
          | VAR_POSITIONAL => Return (first :: rest)
          | KEYWORD_ONLY | VAR_KEYWORD => Raise (ValueError "invalid method signature")
          end
      end
  end.

(** Lines 51-92: the body of the loop of [list_tools], one descriptor
    per function tool. *)
Definition infer (func_tool : FunctionTool) : outcome Tool :=
  let f := func func_tool in
  let func_name := c_name f in
  let func_doc := doc_or (c_doc f) ("Execute " ++ func_name) in
  match inspect_signature f with
  | Raise e => Raise e
  | Return sig_parameters =>
      let parameters := build_parameters sig_parameters in
      Return {| name := func_name;
                description := PyStr.strip (PyStr.first_line func_doc);
                inputSchema :=
                  {| schema_type := "object";
                     properties := parameters;
                     required := build_required sig_parameters |} |}
  end.

(** Lines 41-95. *)
Definition list_tools : M State (list Tool) :=
  (ensure_toolkit ;;;
   function_tools <- get_tools ;;
   for_each (fun func_tool st => (infer func_tool, st)) function_tools)%py.

(** Lines 107-112: the first function tool whose [__name__] is [name]. *)
Fixpoint find_target (name : string) (function_tools : list FunctionTool)
  : option Callable :=
  match function_tools with
  | [] => None
  | func_tool :: rest =>
      if String.eqb (c_name (func func_tool)) name then Some (func func_tool)
      else find_target name rest
  end.

Definition text_block (s : string) : list TextContent :=
  [ {| content_type := "text"; text := s |} ].

(** Lines 104-134: the [try] statement of [call_tool]. *)
Definition call_tool_try (name : string) (arguments : kwargs)
  : M State (list TextContent) :=
  (try_except
     (function_tools <- get_tools ;;
      match find_target name function_tools with
      | None => ret (text_block ("Tool '" ++ name ++ "' not found"))
      | Some target_func =>
          result <- invoke target_func arguments ;;
          match result with
          | VStr s => ret (text_block s)
          | other => ret (text_block (py_str other))
          end
      end)
     (fun e =>
        logger ERROR ("Error calling tool " ++ name ++ ": " ++ exc_str e) ;;;
        ret (text_block ("Error calling tool " ++ name ++ ": " ++ exc_str e))))%py.

(** Lines 98-134. *)
Definition call_tool (name : string) (arguments : kwargs)
  : M State (list TextContent) :=
  (ensure_toolkit ;;; call_tool_try name arguments)%py.

(** What reaches the module while the process lives: the two requests,
    and an assignment to the global [toolkit_kwargs] (line 204). *)
Inductive event : Type :=
| ListTools
| CallTool (name : string) (arguments : kwargs)
| SetKwargs (kw : kwargs).

Definition handle (ev : event) (st : State) : State :=
  match ev with
  | ListTools => snd (list_tools st)
  | CallTool name arguments => snd (call_tool name arguments st)
  | SetKwargs kw => set_toolkit_kwargs kw st
  end.

(** The events handled one after the other, whatever each one ends in. *)
Definition serve (evs : list event) (st : State) : State :=
  fold_left (fun s ev => handle ev s) evs st.

Definition is_request (ev : event) : bool :=
  match ev with
  | SetKwargs _ => false
  | _ => true
  end.

(** How many constructor calls returned an instance. *)
Definition builds (st : State) : nat :=
  length (filter snd (factory_calls st)).

(** Built or not: no toolkit and no successful constructor call, or a
    toolkit and one successful call. *)
Definition registry_invariant (st : State) : Prop :=
  (terminal_toolkit st = None /\ builds st = 0)
  \/ ((exists tk, terminal_toolkit st = Some tk) /\ builds st = 1).

(** The callables the registry exposes in a state. *)
Definition registered (st : State) : list FunctionTool :=
  match terminal_toolkit st with
  | Some tk => tk_tools tk
  | None => []
  end.

(** The state a successful first initialization leaves. *)
Definition built_state (tk : Toolkit) (w' : World) (st : State) : State :=
  set_terminal_toolkit (Some tk)
    (set_world w'
       (add_factory_call (toolkit_kwargs st) true
          (add_log INFO "Initializing Terminal Toolkit" st))).

(** The state a failed initialization leaves. *)
Definition failed_state (w' : World) (st : State) : State :=
  set_world w'
    (add_factory_call (toolkit_kwargs st) false
       (add_log INFO "Initializing Terminal Toolkit" st)).

(** The loop of [list_tools] without the state, which it does not
    touch. *)
Fixpoint infer_all (fts : list FunctionTool) : outcome (list Tool) :=
  match fts with
  | [] => Return []
  | ft :: rest =>
      match infer ft with
      | Raise e => Raise e
      | Return t =>
          match infer_all rest with
          | Raise e => Raise e
          | Return ts => Return (t :: ts)
          end
      end
  end.

(** The receiver parameter of a method-backed callable: the first
    declared parameter, which the bound method fills in. *)
Definition receiver (f : Callable) : option Param :=
  match c_form f, c_params f with
  | BoundMethod, first :: _ =>
      match p_kind first with
      | POSITIONAL_ONLY | POSITIONAL_OR_KEYWORD => Some first
      | _ => None
      end
  | _, _ => None
  end.

End Server.

Arguments mkCallable {World}.
Arguments c_form {World}.
Arguments c_name {World}.
Arguments c_doc {World}.
Arguments c_params {World}.
Arguments c_call {World}.
Arguments mkFunctionTool {World}.
Arguments func {World}.
Arguments mkToolkit {World}.
Arguments tk_tools {World}.
Arguments mkState {World}.
Arguments terminal_toolkit {World}.
Arguments toolkit_kwargs {World}.
Arguments log {World}.
Arguments factory_calls {World}.
Arguments world {World}.
Arguments initial_state {World}.
Arguments set_terminal_toolkit {World}.
Arguments set_toolkit_kwargs {World}.
Arguments set_world {World}.
Arguments add_log {World}.
Arguments add_factory_call {World}.
Arguments logger {World}.
Arguments construct_toolkit {World}.
Arguments invoke {World}.
Arguments not_toolkit {World}.
Arguments initialize_toolkit {World}.
Arguments ensure_toolkit {World}.
Arguments get_tools {World}.
Arguments inspect_signature {World}.
Arguments infer {World}.
Arguments list_tools {World}.
Arguments find_target {World}.
Arguments call_tool_try {World}.
Arguments call_tool {World}.
Arguments handle {World}.
Arguments serve {World}.
Arguments builds {World}.
Arguments registered {World}.
Arguments registry_invariant {World}.
Arguments receiver {World}.
Arguments built_state {World}.
Arguments failed_state {World}.
Arguments infer_all {World}.

(** Python rejects a [def] with two parameters of the same name. *)
Definition well_formed {World} (f : Callable World) : Prop :=
  NoDup (map p_name (c_params f)).

(** [t] is what every listing shows at the places of [f]: whenever
    [list_tools] returns, the descriptor at an index where the registry
    holds [f] is [t]. *)
Definition lists_as {World}
  (TerminalToolkit : kwargs -> World -> outcome (Toolkit World) * World)
  (f : Callable World) (t : Tool) : Prop :=
  forall st tools st' i,
    list_tools TerminalToolkit st = (Return tools, st') ->
    nth_error (registered st') i = Some {| func := f |} ->
    nth_error tools i = Some t.

(** The schema type the specification gives an annotation. *)
Definition surfaced_kind (a : param_annotation) : string :=
  match a with
  | Ann_str => "string"
  | Ann_int => "number"
  | Ann_bool => "boolean"
  | Ann_empty | Ann_other _ => "string"
  end.

(* ------------------------------------------------------------------ *)
(** * Sample tools *)
(* ------------------------------------------------------------------ *)

Module Sample.

Definition TypeError (msg : string) : PyExc := mkExc "TypeError" UnderException msg.

(** [def echo(x: str, times: int = 1)], documented, returns [x]. *)
Definition echo : Callable unit :=
  {| c_form := Function;
     c_name := "echo";
     c_doc := Some ("  Echo the text.  " ++ String PyStr.newline "  Longer notes.");
     c_params := [ mkParam "x" POSITIONAL_OR_KEYWORD Ann_str None;
                   mkParam "times" POSITIONAL_OR_KEYWORD Ann_int (Some (VInt 1)) ];
     c_call := fun kw w =>
       match Dict.get kw "x" with
       | Some v => (Return v, w)
       | None => (Raise (TypeError "echo() missing 1 required positional argument: 'x'"), w)
       end |}.

(** A method of the toolkit, bound to the instance:
    [def shell_exec(self, id: str, command: str, block: bool = True, env=None)] *)
Definition shell_exec : Callable unit :=
  {| c_form := BoundMethod;
     c_name := "shell_exec";
     c_doc := None;
     c_params := [ mkParam "self" POSITIONAL_OR_KEYWORD Ann_empty None;
                   mkParam "id" POSITIONAL_OR_KEYWORD Ann_str None;
                   mkParam "command" POSITIONAL_OR_KEYWORD Ann_str None;
                   mkParam "block" POSITIONAL_OR_KEYWORD Ann_bool (Some (VBool true));
                   mkParam "env" POSITIONAL_OR_KEYWORD Ann_empty (Some VNone) ];
     c_call := fun kw w => (Return (VInt 0), w) |}.

(** [def boom(): raise ValueError("bad input")] *)
Definition boom : Callable unit :=
  {| c_form := Function;
     c_name := "boom";
     c_doc := Some "";
     c_params := [];
     c_call := fun kw w => (Raise (ValueError "bad input"), w) |}.

(** [def halt(): raise KeyboardInterrupt] *)
Definition halt : Callable unit :=
  {| c_form := Function;
     c_name := "halt";
     c_doc := Some "Stop.";
     c_params := [];
     c_call := fun kw w => (Raise KeyboardInterrupt, w) |}.

Definition toolkit : Toolkit unit :=
  {| tk_tools := [ {| func := echo |}; {| func := shell_exec |};
                   {| func := boom |}; {| func := halt |} ] |}.

(** A toolkit that exposes the same callable twice. *)
Definition twin_toolkit : Toolkit unit :=
  {| tk_tools := [ {| func := echo |}; {| func := echo |} ] |}.

Definition factory : kwargs -> unit -> outcome (Toolkit unit) * unit :=
  fun _ w => (Return toolkit, w).

Definition twin_factory : kwargs -> unit -> outcome (Toolkit unit) * unit :=
  fun _ w => (Return twin_toolkit, w).

(** A constructor that rejects its configuration. *)
Definition failing_factory : kwargs -> unit -> outcome (Toolkit unit) * unit :=
  fun _ w => (Raise (ValueError "bad configuration"), w).

(** The registry already built. *)
Definition ready : State unit :=
  {| terminal_toolkit := Some toolkit; toolkit_kwargs := [];
     log := []; factory_calls := [([], true)]; world := tt |}.

End Sample.

(* ------------------------------------------------------------------ *)
(** * Start-up: [parse_args] and [main] *)
(* ------------------------------------------------------------------ *)

(** The namespace [parser.parse_args()] returns for the options of lines
    144-176: [--working-directory] (a string, [None] when absent),
    [--timeout] (a float, carried as an object the server never looks
    into), [--safe-mode] / [--no-safe-mode], [--interactive] and
    [--transport]. *)
Record Namespace : Type := mkNamespace {
  ns_working_directory : option string;
  ns_timeout : value;
  ns_safe_mode : bool;
  ns_interactive : bool;
  ns_transport : string
}.

(** The dictionary [parse_args] returns: its two keys. *)
Record ParsedArgs : Type := mkParsedArgs {
  pa_toolkit_kwargs : kwargs;
  pa_transport_type : string
}.

(** [if args.working_directory]: [None] and [""] are false. *)
Definition working_directory_given (args : Namespace) : bool :=
  match ns_working_directory args with
  | Some d => PyStr.truthy d
  | None => false
  end.

(** Lines 180-193: from the namespace to the returned dictionary. *)
Definition convert_args (args : Namespace) : ParsedArgs :=
  let toolkit_kwargs : kwargs :=
    [ ("timeout", ns_timeout args);
      ("safe_mode", VBool (ns_safe_mode args));
      ("interactive", VBool (ns_interactive args)) ] in
  let toolkit_kwargs :=
    if working_directory_given args then
      match ns_working_directory args with
      | Some d => Dict.set toolkit_kwargs "working_directory" (VStr d)
      | None => toolkit_kwargs
      end
    else toolkit_kwargs in
  {| pa_toolkit_kwargs := toolkit_kwargs;
     pa_transport_type := ns_transport args |}.

(** Lines 137-193: [parser.parse_args()] ends in a namespace or raises
    ([SystemExit] on a bad command line or on [--help]); the namespace
    is converted. *)
Definition parse_args (parser_parse_args : outcome Namespace) : outcome ParsedArgs :=
  match parser_parse_args with
  | Return args => Return (convert_args args)
  | Raise e => Raise e
  end.

(** [SystemExit(code)], as [sys.exit(code)] raises it. *)
Definition SystemExit (code : string) : PyExc :=
  mkExc "SystemExit" UnderBaseExceptionOnly code.

(** [isinstance(e, KeyboardInterrupt)], the test of
    [except KeyboardInterrupt]; [exc_class] is read as the built-in
    class the exception is an instance of. *)
Definition is_KeyboardInterrupt (e : PyExc) : bool :=
  String.eqb (exc_class e) "KeyboardInterrupt".

(** A [try] with several [except] clauses: the first clause whose test
    holds handles the exception; none, and it goes on. *)
Fixpoint first_clause {S A}
  (clauses : list ((PyExc -> bool) * (PyExc -> M S A))) (e : PyExc) : M S A :=
  match clauses with
  | [] => raise e
  | (test, handler) :: rest =>
      if test e then handler e else first_clause rest e
  end.

Definition try_clauses {S A} (body : M S A)
  (clauses : list ((PyExc -> bool) * (PyExc -> M S A))) : M S A :=
  fun st =>
    match body st with
    | (Return a, st') => (Return a, st')
    | (Raise e, st') => first_clause clauses e st'
    end.

Section Startup.

Context {World : Type}.

(** What [parser.parse_args()] does with the command line. *)
Variable parser_parse_args : outcome Namespace.

(** [await stdio_server(server)]: the transport, which runs until it
    returns or raises. *)
Variable stdio_server : M (State World) unit.

(** Lines 198-215. *)
Definition async_main : M (State World) unit :=
  try_clauses
    (args <- (fun st => (parse_args parser_parse_args, st)) ;;
     modify (set_toolkit_kwargs (pa_toolkit_kwargs args)) ;;;
     logger INFO "Starting CAMEL Terminal Toolkit MCP Server" ;;;
     stdio_server)%py
    [ (is_KeyboardInterrupt,
       fun _ => logger INFO "Server interrupted by user");
      (is_Exception,
       fun e => (logger ERROR ("Server error: " ++ exc_str e) ;;;
                 raise (SystemExit "1"))%py) ].

(** Lines 196-217: [asyncio.run(async_main())]. *)
Definition main : M (State World) unit := async_main.

End Startup.

(** The state the transport is started in (lines 203-206): the
    configuration assigned, the start logged. *)
Definition started {World} (args : ParsedArgs) (st : State World) : State World :=
  add_log INFO "Starting CAMEL Terminal Toolkit MCP Server"
    (set_toolkit_kwargs (pa_toolkit_kwargs args) st).


(* ------------------------------------------------------------------ *)
(** * What the properties below speak of *)
(* ------------------------------------------------------------------ *)

Module PyText.

(** [s] holds a line feed. *)
Fixpoint has_newline (s : string) : bool :=
  match s with
  | EmptyString => false
  | String c rest => Ascii.eqb c PyStr.newline || has_newline rest
  end.

Definition starts_with_space (s : string) : bool :=
  match s with
  | EmptyString => false
  | String c _ => PyStr.isspace c
  end.

Fixpoint ends_with_space (s : string) : bool :=
  match s with
  | EmptyString => false
  | String c EmptyString => PyStr.isspace c
  | String _ rest => ends_with_space rest
  end.

(** Every character of [s] is white space. *)
Fixpoint blank (s : string) : bool :=
  match s with
  | EmptyString => true
  | String c rest => PyStr.isspace c && blank rest
  end.

End PyText.

(** What [call_tool] answers once the callable [name] stands for has
    ended in [r] (lines 121-134). *)
Definition answer (name : string) (r : outcome value) : outcome (list TextContent) :=
  match r with
  | Return v => Return (text_block (result_text v))
  | Raise e =>
      if is_Exception e then Return (text_block (error_text name e)) else Raise e
  end.

(** The log record every constructor call is preceded by (line 37). *)
Definition is_announcement (record : log_level * string) : bool :=
  match record with
  | (INFO, msg) => String.eqb msg "Initializing Terminal Toolkit"
  | (ERROR, _) => false
  end.

Definition announcements {World} (st : State World) : nat :=
  length (filter is_announcement (log st)).

Module Sample2.

(** A second callable named [echo], which answers with a fixed text. *)
Definition echo_shadow : Callable unit :=
  {| c_form := Function;
     c_name := "echo";
     c_doc := Some (String PyStr.newline "    Shadowed.");
     c_params := [];
     c_call := fun kw w => (Return (VStr "second"), w) |}.

(** A bound method whose [def] declares no parameter at all. *)
Definition broken : Callable unit :=
  {| c_form := BoundMethod;
     c_name := "broken";
     c_doc := None;
     c_params := [];
     c_call := fun kw w => (Return VNone, w) |}.

Definition shadow_toolkit : Toolkit unit :=
  {| tk_tools := [ {| func := Sample.boom |}; {| func := Sample.echo |};
                   {| func := echo_shadow |} ] |}.

Definition broken_toolkit : Toolkit unit :=
  {| tk_tools := [ {| func := Sample.echo |}; {| func := broken |};
                   {| func := Sample.boom |} ] |}.

Definition shadow_ready : State unit :=
  {| terminal_toolkit := Some shadow_toolkit; toolkit_kwargs := [];
     log := []; factory_calls := [([], true)]; world := tt |}.

Definition broken_ready : State unit :=
  {| terminal_toolkit := Some broken_toolkit; toolkit_kwargs := [];
     log := []; factory_calls := [([], true)]; world := tt |}.

(** A constructor that needs a working directory in its configuration. *)
Definition picky_factory : kwargs -> unit -> outcome (Toolkit unit) * unit :=
  fun kw w =>
    match Dict.get kw "working_directory" with
    | Some _ => (Return Sample.toolkit, w)
    | None => (Raise (ValueError "bad configuration"), w)
    end.

(** [--working-directory /tmp --no-safe-mode] *)
Definition namespace : Namespace :=
  {| ns_working_directory := Some "/tmp";
     ns_timeout := VObject "20.0";
     ns_safe_mode := false;
     ns_interactive := false;
     ns_transport := "stdio" |}.

(** A transport that fails at once. *)
Definition failing_transport : M (State unit) unit :=
  raise (Sample.TypeError "object is not awaitable").

End Sample2.

(* ------------------------------------------------------------------ *)
(** * Strings: the first line and the strip of a generated text *)
(* ------------------------------------------------------------------ *)

Module PyStrFacts.
Import PyStr.

Lemma newline_isspace : isspace newline = true.
Proof. reflexivity. Qed.

Lemma first_line_spaceless s : spaceless s = true -> first_line s = s.
Proof.
  induction s as [|c rest IH]; simpl; intros H; [reflexivity|].
  apply andb_true_iff in H as [Hc Hrest].
  destruct (Ascii.eqb_spec c newline) as [->|_].
  - rewrite newline_isspace in Hc. discriminate.
  - now rewrite IH.
Qed.

Lemma rstrip_spaceless s : spaceless s = true -> rstrip s = s.
Proof.
  induction s as [|c rest IH]; simpl; intros H; [reflexivity|].
  apply andb_true_iff in H as [Hc Hrest].
  rewrite (IH Hrest).
  destruct rest; [|reflexivity].
  apply negb_true_iff in Hc. now rewrite Hc.
Qed.

Lemma rstrip_app_fixed a b :
  b <> "" -> rstrip b = b -> rstrip (a ++ b) = a ++ b.
Proof.
  intros Hne Hb.
  induction a as [|c a IH]; simpl; [exact Hb|].
  rewrite IH.
  destruct (a ++ b) eqn:E; [|reflexivity].
  destruct a; simpl in E; [contradiction | discriminate].
Qed.

(** A text made of a prefix that starts with a letter and of a name
    without white space is its own stripped first line. *)
Lemma generated_text_fixed name :
  spaceless name = true -> name <> "" ->
  strip (first_line ("Execute " ++ name)) = "Execute " ++ name.
Proof.
  intros Hs Hne.
  assert (Hfl : first_line ("Execute " ++ name) = "Execute " ++ name).
  { cbn. now rewrite (first_line_spaceless name Hs). }
  rewrite Hfl. unfold strip.
  change (lstrip ("Execute " ++ name)) with ("Execute " ++ name).
  apply rstrip_app_fixed; [exact Hne | now apply rstrip_spaceless].
Qed.

Lemma truthy_true s : s <> "" -> truthy s = true.
Proof. destruct s; [contradiction | reflexivity]. Qed.

End PyStrFacts.

(* ------------------------------------------------------------------ *)
(** * Dictionaries *)
(* ------------------------------------------------------------------ *)

Module DictFacts.
Section Facts.
Context {V : Type}.
Implicit Types (d : Dict.t V) (k : string) (v : V).

Lemma set_entry_inv d k v k' v' :
  In (k', v') (Dict.set d k v) -> (k' = k /\ v' = v) \/ In (k', v') d.
Proof.
  induction d as [|[k0 v0] rest IH]; simpl.
  - intros [E|[]]. inversion E. now left.
  - destruct (String.eqb_spec k0 k) as [->|Hne]; simpl.
    + intros [E|Hin]; [inversion E; now left | right; now right].
    + intros [E|Hin]; [right; now left|].
      destruct (IH Hin) as [?|?]; [now left | right; now right].
Qed.

Lemma keys_set d k v k' :
  In k' (Dict.keys (Dict.set d k v)) <-> k' = k \/ In k' (Dict.keys d).
Proof.
  unfold Dict.keys.
  induction d as [|[k0 v0] rest IH]; simpl.
  - intuition congruence.
  - destruct (String.eqb_spec k0 k) as [->|Hne]; simpl.
    + intuition congruence.
    + rewrite IH. intuition congruence.
Qed.

Lemma get_set_same d k v : Dict.get (Dict.set d k v) k = Some v.
Proof.
  induction d as [|[k0 v0] rest IH]; simpl.
  - now rewrite String.eqb_refl.
  - destruct (String.eqb_spec k0 k) as [->|Hne]; simpl.
    + now rewrite String.eqb_refl.
    + destruct (String.eqb_spec k0 k); [contradiction | exact IH].
Qed.

Lemma get_set_other d k v k' :
  k' <> k -> Dict.get (Dict.set d k v) k' = Dict.get d k'.
Proof.
  intros Hne.
  induction d as [|[k0 v0] rest IH]; simpl.
  - destruct (String.eqb_spec k k'); [congruence | reflexivity].
  - destruct (String.eqb_spec k0 k) as [->|Hne0]; simpl.
    + destruct (String.eqb_spec k k'); [congruence | reflexivity].
    + destruct (String.eqb_spec k0 k'); [reflexivity | exact IH].
Qed.
End Facts.
End DictFacts.

(* ------------------------------------------------------------------ *)
(** * The parameter loop *)
(* ------------------------------------------------------------------ *)

Section ParameterLoop.

Lemma fill_keys ps : forall acc k,
  In k (Dict.keys (fill acc ps)) <-> In k (Dict.keys acc) \/ In k (map p_name ps).
Proof.
  induction ps as [|p rest IH]; intros acc k; simpl.
  - tauto.
  - unfold fill in *. simpl. rewrite IH, DictFacts.keys_set.
    intuition congruence.
Qed.

Lemma fill_get_untouched ps : forall acc k,
  ~ In k (map p_name ps) -> Dict.get (fill acc ps) k = Dict.get acc k.
Proof.
  induction ps as [|p rest IH]; intros acc k Hk; simpl in *; [reflexivity|].
  unfold fill in *. simpl. rewrite IH by tauto.
  apply DictFacts.get_set_other. intros ->. tauto.
Qed.

Lemma fill_get_declared ps : forall acc p,
  NoDup (map p_name ps) -> In p ps ->
  Dict.get (fill acc ps) (p_name p) = Some (param_info_of p).
Proof.
  induction ps as [|q rest IH]; intros acc p Hnd Hin; simpl in *; [contradiction|].
  inversion Hnd as [|? ? Hq Hrest]; subst.
  destruct Hin as [->|Hin].
  - unfold fill. simpl.
    change (Dict.get (fill (Dict.set acc (p_name p) (param_info_of p)) rest) (p_name p)
            = Some (param_info_of p)).
    rewrite fill_get_untouched by exact Hq.
    apply DictFacts.get_set_same.
  - unfold fill. simpl. apply (IH _ _ Hrest Hin).
Qed.

Lemma fill_entries ps : forall acc k info,
  In (k, info) (fill acc ps) ->
  In (k, info) acc \/ exists p, In p ps /\ k = p_name p /\ info = param_info_of p.
Proof.
  induction ps as [|p rest IH]; intros acc k info Hin; simpl in *; [now left|].
  unfold fill in *. simpl in Hin.
  destruct (IH _ _ _ Hin) as [Hacc|(q & Hq & -> & ->)].
  - destruct (DictFacts.set_entry_inv _ _ _ _ _ Hacc) as [[-> ->]|Hold].
    + right. exists p. auto.
    + now left.
  - right. exists q. auto.
Qed.

Lemma build_parameters_keys ps k :
  In k (Dict.keys (build_parameters ps)) <-> In k (map p_name ps).
Proof.
  pose proof (fill_keys ps [] k) as H. unfold fill in H. simpl in H.
  unfold build_parameters. tauto.
Qed.

Lemma build_parameters_get ps p :
  NoDup (map p_name ps) -> In p ps ->
  Dict.get (build_parameters ps) (p_name p) = Some (param_info_of p).
Proof. apply fill_get_declared. Qed.

Lemma build_parameters_entries ps k info :
  In (k, info) (build_parameters ps) ->
  exists p, In p ps /\ k = p_name p /\ info = param_info_of p.
Proof.
  intros Hin. destruct (fill_entries ps [] k info Hin) as [[]|H]. exact H.
Qed.

Lemma build_required_iff ps k :
  In k (build_required ps) <-> exists p, In p ps /\ p_name p = k /\ p_default p = None.
Proof.
  unfold build_required. rewrite in_map_iff. split.
  - intros (p & Hk & Hin). apply filter_In in Hin as [Hin Hd].
    exists p. repeat split; auto.
    unfold default_is_empty in Hd. destruct (p_default p); [discriminate | reflexivity].
  - intros (p & Hin & Hk & Hd). exists p. split; [exact Hk|].
    apply filter_In. split; [exact Hin|].
    unfold default_is_empty. now rewrite Hd.
Qed.

(** With distinct parameter names, a name determines its parameter. *)
Lemma name_determines ps p q :
  NoDup (map p_name ps) -> In p ps -> In q ps -> p_name p = p_name q -> p = q.
Proof.
  induction ps as [|r rest IH]; simpl; intros Hnd Hp Hq E; [contradiction|].
  inversion Hnd as [|? ? Hr Hrest]; subst.
  destruct Hp as [->|Hp], Hq as [->|Hq]; auto.
  - exfalso. apply Hr. rewrite E. now apply in_map.
  - exfalso. apply Hr. rewrite <- E. now apply in_map.
Qed.

End ParameterLoop.

(* ------------------------------------------------------------------ *)
(** * The handlers, case by case *)
(* ------------------------------------------------------------------ *)

Section HandlerFacts.

Context {World : Type}.
Variable TerminalToolkit : kwargs -> World -> outcome (Toolkit World) * World.

Implicit Types (st : State World) (tk : Toolkit World) (f : Callable World).

Lemma ensure_ready st tk :
  terminal_toolkit st = Some tk ->
  ensure_toolkit TerminalToolkit st = (Return tt, st).
Proof.
  intros H. unfold ensure_toolkit, bind, gets. now rewrite H.
Qed.

Lemma ensure_builds st tk w' :
  terminal_toolkit st = None ->
  TerminalToolkit (toolkit_kwargs st) (world st) = (Return tk, w') ->
  ensure_toolkit TerminalToolkit st = (Return tt, built_state tk w' st).
Proof.
  intros H HF.
  unfold ensure_toolkit, initialize_toolkit, bind, gets, logger, modify,
    construct_toolkit.
  rewrite H. simpl. rewrite H. simpl. rewrite HF. reflexivity.
Qed.

Lemma ensure_fails st e w' :
  terminal_toolkit st = None ->
  TerminalToolkit (toolkit_kwargs st) (world st) = (Raise e, w') ->
  ensure_toolkit TerminalToolkit st = (Raise e, failed_state w' st).
Proof.
  intros H HF.
  unfold ensure_toolkit, initialize_toolkit, bind, gets, logger, modify,
    construct_toolkit.
  rewrite H. simpl. rewrite H. simpl. rewrite HF. reflexivity.
Qed.

(** The three cases are all there is. *)
Lemma ensure_cases st :
  (exists tk, terminal_toolkit st = Some tk
     /\ ensure_toolkit TerminalToolkit st = (Return tt, st))
  \/ (exists tk w', terminal_toolkit st = None
     /\ TerminalToolkit (toolkit_kwargs st) (world st) = (Return tk, w')
     /\ ensure_toolkit TerminalToolkit st = (Return tt, built_state tk w' st))
  \/ (exists e w', terminal_toolkit st = None
     /\ TerminalToolkit (toolkit_kwargs st) (world st) = (Raise e, w')
     /\ ensure_toolkit TerminalToolkit st = (Raise e, failed_state w' st)).
Proof.
  destruct (terminal_toolkit st) as [tk|] eqn:H.
  - left. exists tk. split; [reflexivity | now apply ensure_ready with tk].
  - right.
    destruct (TerminalToolkit (toolkit_kwargs st) (world st)) as [[tk|e] w'] eqn:HF.
    + left. exists tk, w'. auto using ensure_builds.
    + right. exists e, w'. auto using ensure_fails.
Qed.

Lemma ensure_Return_toolkit st u st1 :
  ensure_toolkit TerminalToolkit st = (Return u, st1) ->
  exists tk, terminal_toolkit st1 = Some tk.
Proof.
  intros H.
  destruct (ensure_cases st) as [(tk & Htk & E)|[(tk & w' & _ & _ & E)|(e & w' & _ & _ & E)]];
    rewrite E in H; inversion H; subst.
  - now exists tk.
  - now exists tk.
Qed.

(** ** [find_target] *)

Lemma find_target_None name (fts : list (FunctionTool World)) :
  find_target name fts = None <->
  forall ft, In ft fts -> c_name (func ft) <> name.
Proof.
  induction fts as [|ft rest IH]; simpl.
  - split; [intros _ ft [] | reflexivity].
  - destruct (String.eqb_spec (c_name (func ft)) name) as [E|NE].
    + split; [discriminate|]. intros H. exfalso. apply (H ft); auto.
    + rewrite IH. split.
      * intros H ft' [<-|Hin]; auto.
      * intros H ft' Hin. apply H. now right.
Qed.

Lemma find_target_Some name (fts : list (FunctionTool World)) f :
  find_target name fts = Some f ->
  c_name f = name /\ exists ft, In ft fts /\ func ft = f.
Proof.
  induction fts as [|ft rest IH]; simpl; [discriminate|].
  destruct (String.eqb_spec (c_name (func ft)) name) as [E|NE].
  - intros H. inversion H; subst. split; [reflexivity|]. exists ft. auto.
  - intros H. destruct (IH H) as [Hn (ft' & Hin & Hf)].
    split; [exact Hn|]. exists ft'. auto.
Qed.

(** ** The [try] statement of [call_tool] *)

Ltac run_try :=
  cbv [call_tool_try try_except bind get_tools gets ret raise invoke logger modify].

Lemma try_not_found name arguments st tk :
  terminal_toolkit st = Some tk ->
  find_target name (tk_tools tk) = None ->
  call_tool_try name arguments st
  = (Return (text_block ("Tool '" ++ name ++ "' not found")), st).
Proof.
  intros Htk Hfind.
  run_try. rewrite Htk. run_try. now rewrite Hfind.
Qed.

Lemma try_returns name arguments st tk f v w' :
  terminal_toolkit st = Some tk ->
  find_target name (tk_tools tk) = Some f ->
  c_call f arguments (world st) = (Return v, w') ->
  call_tool_try name arguments st
  = (Return (text_block (result_text v)), set_world w' st).
Proof.
  intros Htk Hfind Hcall.
  run_try. rewrite Htk. run_try. rewrite Hfind. run_try. rewrite Hcall.
  destruct v; reflexivity.
Qed.

Lemma try_raises name arguments st tk f e w' :
  terminal_toolkit st = Some tk ->
  find_target name (tk_tools tk) = Some f ->
  c_call f arguments (world st) = (Raise e, w') ->
  call_tool_try name arguments st
  = if is_Exception e
    then (Return (text_block (error_text name e)),
          add_log ERROR (error_text name e) (set_world w' st))
    else (Raise e, set_world w' st).
Proof.
  intros Htk Hfind Hcall.
  run_try. rewrite Htk. run_try. rewrite Hfind. run_try. rewrite Hcall.
  destruct (is_Exception e); reflexivity.
Qed.

(** Whatever the state, the [try] statement returns one text block or
    lets through an exception that is not an [Exception]; it leaves
    the toolkit, the configuration and the constructor calls alone. *)
Lemma try_shape name arguments st :
  exists r st',
    call_tool_try name arguments st = (r, st')
    /\ terminal_toolkit st' = terminal_toolkit st
    /\ toolkit_kwargs st' = toolkit_kwargs st
    /\ factory_calls st' = factory_calls st
    /\ match r with
       | Return resp => exists s, resp = text_block s
       | Raise e => is_Exception e = false
       end.
Proof.
  destruct (terminal_toolkit st) as [tk|] eqn:Htk.
  - destruct (find_target name (tk_tools tk)) as [f|] eqn:Hfind.
    + destruct (c_call f arguments (world st)) as [[v|e] w'] eqn:Hcall.
      * rewrite (try_returns _ _ _ _ _ _ _ Htk Hfind Hcall).
        do 2 eexists. split; [reflexivity|]. simpl. rewrite Htk. eauto 6.
      * rewrite (try_raises _ _ _ _ _ _ _ Htk Hfind Hcall).
        destruct (is_Exception e) eqn:He;
          do 2 eexists; (split; [reflexivity|]); simpl; rewrite Htk; eauto 6.
    + rewrite (try_not_found _ arguments _ _ Htk Hfind).
      do 2 eexists. split; [reflexivity|]. rewrite Htk. eauto 6.
  - run_try. rewrite Htk. run_try. simpl. do 2 eexists. split; [reflexivity|]. simpl. rewrite Htk. eauto 6.
Qed.

(** ** [call_tool] and [list_tools] through the lazy initialization *)

Lemma call_tool_ready name arguments st st1 u :
  ensure_toolkit TerminalToolkit st = (Return u, st1) ->
  call_tool TerminalToolkit name arguments st = call_tool_try name arguments st1.
Proof. intros H. unfold call_tool, bind. now rewrite H. Qed.

Lemma call_tool_unready name arguments st st1 e :
  ensure_toolkit TerminalToolkit st = (Raise e, st1) ->
  call_tool TerminalToolkit name arguments st = (Raise e, st1).
Proof. intros H. unfold call_tool, bind. now rewrite H. Qed.

Lemma for_each_infer (fts : list (FunctionTool World)) st :
  for_each (fun func_tool s => (infer func_tool, s)) fts st = (infer_all fts, st).
Proof.
  induction fts as [|ft rest IH]; simpl; [reflexivity|].
  cbv [bind ret]. destruct (infer ft) as [t|e]; [|reflexivity].
  rewrite IH. destruct (infer_all rest); reflexivity.
Qed.

Lemma infer_all_Return (fts : list (FunctionTool World)) tools :
  infer_all fts = Return tools
  <-> Forall2 (fun ft t => infer ft = Return t) fts tools.
Proof.
  revert tools. induction fts as [|ft rest IH]; intros tools; simpl.
  - split; intros H; inversion H; constructor.
  - destruct (infer ft) as [t|e] eqn:Hi.
    + destruct (infer_all rest) as [ts|e] eqn:Hr.
      * split.
        -- intros H. inversion H; subst. constructor; [exact Hi|]. now apply IH.
        -- intros H. inversion H as [|? t' ? ts' Ht Hts]; subst.
           apply IH in Hts. congruence.
      * split; [discriminate|].
        intros H. inversion H as [|? t' ? ts' Ht Hts]; subst.
        apply IH in Hts. discriminate.
    + split; [discriminate|].
      intros H. inversion H as [|? t' ? ts' Ht Hts]; subst. congruence.
Qed.

Lemma list_tools_unfold st :
  list_tools TerminalToolkit st
  = match ensure_toolkit TerminalToolkit st with
    | (Return _, st1) => (infer_all (registered st1), st1)
    | (Raise e, st1) => (Raise e, st1)
    end.
Proof.
  unfold list_tools, bind.
  destruct (ensure_toolkit TerminalToolkit st) as [[u|e] st1] eqn:He; [|reflexivity].
  destruct (ensure_Return_toolkit _ _ _ He) as [tk Htk].
  cbv [get_tools bind gets ret]. unfold registered. rewrite Htk.
  apply for_each_infer.
Qed.

Lemma list_tools_state st :
  snd (list_tools TerminalToolkit st) = snd (ensure_toolkit TerminalToolkit st).
Proof.
  rewrite list_tools_unfold.
  destruct (ensure_toolkit TerminalToolkit st) as [[u|e] st1]; reflexivity.
Qed.

(** A listing that returns holds one descriptor per registered
    callable, in order, each the inference of its callable. *)
Lemma list_tools_Return st tools st' :
  list_tools TerminalToolkit st = (Return tools, st') ->
  snd (ensure_toolkit TerminalToolkit st) = st'
  /\ Forall2 (fun ft t => infer ft = Return t) (registered st') tools.
Proof.
  rewrite list_tools_unfold.
  destruct (ensure_toolkit TerminalToolkit st) as [[u|e] st1]; [|discriminate].
  intros H. inversion H; subst. split; [reflexivity|].
  now apply infer_all_Return.
Qed.

(** And it does return when the registry is there, or can be built,
    and every callable has a signature. *)
Lemma list_tools_returns st st1 u tools :
  ensure_toolkit TerminalToolkit st = (Return u, st1) ->
  Forall2 (fun ft t => infer ft = Return t) (registered st1) tools ->
  list_tools TerminalToolkit st = (Return tools, st1).
Proof.
  intros He Hall. rewrite list_tools_unfold, He.
  apply infer_all_Return in Hall. now rewrite Hall.
Qed.

Lemma Forall2_In_r {A B} (R : A -> B -> Prop) xs ys y :
  Forall2 R xs ys -> In y ys -> exists x, In x xs /\ R x y.
Proof.
  induction 1 as [|x y' xs ys HR _ IH]; simpl; [contradiction|].
  intros [<-|Hin].
  - exists x. auto.
  - destruct (IH Hin) as (x' & Hx & HRx). exists x'. auto.
Qed.

(** Every descriptor of a listing is the inference of a registered
    callable. *)
Lemma listed_descriptor st tools st' t :
  list_tools TerminalToolkit st = (Return tools, st') ->
  In t tools ->
  exists ft, In ft (registered st') /\ infer ft = Return t.
Proof.
  intros H Hin. apply list_tools_Return in H as [_ Hall].
  destruct (Forall2_In_r _ _ _ _ Hall Hin) as (ft & Hft & Hi). exists ft. auto.
Qed.

End HandlerFacts.

(* ------------------------------------------------------------------ *)
(** * Signatures and the inference of one descriptor *)
(* ------------------------------------------------------------------ *)

Section InferenceFacts.

Context {World : Type}.
Variable TerminalToolkit : kwargs -> World -> outcome (Toolkit World) * World.

Implicit Types (f : Callable World) (ps : list Param) (t : Tool).

Lemma infer_Return f ps :
  inspect_signature f = Return ps ->
  infer {| func := f |}
  = Return {| name := c_name f;
              description :=
                PyStr.strip (PyStr.first_line
                               (doc_or (c_doc f) ("Execute " ++ c_name f)));
              inputSchema := {| schema_type := "object";
                                properties := build_parameters ps;
                                required := build_required ps |} |}.
Proof. intros H. unfold infer. simpl. now rewrite H. Qed.

Lemma infer_name (ft : FunctionTool World) t :
  infer ft = Return t -> name t = c_name (func ft).
Proof.
  unfold infer. destruct (inspect_signature (func ft)); [|discriminate].
  intros H. inversion H. reflexivity.
Qed.

Lemma Forall2_nth_error_l {A B} (R : A -> B -> Prop) xs ys i x :
  Forall2 R xs ys -> nth_error xs i = Some x ->
  exists y, nth_error ys i = Some y /\ R x y.
Proof.
  intros H. revert i.
  induction H as [|x0 y0 xs ys HR _ IH]; intros [|i]; simpl; try discriminate.
  - intros E. inversion E; subst. exists y0. auto.
  - apply IH.
Qed.

Lemma infer_lists_as f t :
  infer {| func := f |} = Return t -> lists_as TerminalToolkit f t.
Proof.
  intros Hi st tools st' i Hl Hnth.
  apply list_tools_Return in Hl as [_ Hall].
  destruct (Forall2_nth_error_l _ _ _ _ _ Hall Hnth) as (t' & Ht' & Hi').
  congruence.
Qed.

(** What [inspect.signature] reports is the declared list or its tail. *)
Lemma signature_shape f ps :
  inspect_signature f = Return ps ->
  ps = c_params f \/ exists first, c_params f = first :: ps.
Proof.
  unfold inspect_signature.
  destruct (c_form f); [intros H; inversion H; now left|].
  destruct (c_params f) as [|first rest]; [discriminate|].
  destruct (p_kind first); intros H; inversion H; subst; eauto.
Qed.

Lemma signature_well_formed f ps :
  inspect_signature f = Return ps -> well_formed f -> NoDup (map p_name ps).
Proof.
  unfold well_formed. intros H Hwf.
  destruct (signature_shape f ps H) as [->|[first E]]; [exact Hwf|].
  rewrite E in Hwf. simpl in Hwf. now inversion Hwf.
Qed.

Lemma receiver_signature f r :
  receiver f = Some r ->
  exists rest, c_params f = r :: rest /\ inspect_signature f = Return rest.
Proof.
  unfold receiver, inspect_signature.
  destruct (c_form f); [discriminate|].
  destruct (c_params f) as [|first rest]; [discriminate|].
  destruct (p_kind first); intros H; inversion H; subst; eauto.
Qed.

Lemma surfaced_kind_correct (param : Param) :
  param_type_of param = surfaced_kind (p_annotation param).
Proof. unfold param_type_of. destruct (p_annotation param); reflexivity. Qed.

Lemma surfaced_kind_range (a : param_annotation) :
  surfaced_kind a = "string" \/ surfaced_kind a = "number"
  \/ surfaced_kind a = "boolean".
Proof. destruct a; simpl; auto. Qed.

End InferenceFacts.

(* ------------------------------------------------------------------ *)
(** * The registry across requests *)
(* ------------------------------------------------------------------ *)

Section RegistryFacts.

Context {World : Type}.
Variable TerminalToolkit : kwargs -> World -> outcome (Toolkit World) * World.

Implicit Types (st : State World) (tk : Toolkit World).

(** A request leaves the toolkit, the configuration and the record of
    constructor calls as its lazy initialization left them. *)
Lemma request_state req st :
  is_request req = true ->
  let st1 := snd (ensure_toolkit TerminalToolkit st) in
  terminal_toolkit (handle TerminalToolkit req st) = terminal_toolkit st1
  /\ toolkit_kwargs (handle TerminalToolkit req st) = toolkit_kwargs st1
  /\ factory_calls (handle TerminalToolkit req st) = factory_calls st1.
Proof.
  destruct req as [|name arguments|kw]; simpl; [| |discriminate]; intros _.
  - now rewrite list_tools_state.
  - destruct (ensure_toolkit TerminalToolkit st) as [[u|e] st1] eqn:He.
    + rewrite (call_tool_ready _ _ _ _ _ _ He). simpl.
      destruct (try_shape name arguments st1) as (r & st' & E & H1 & H2 & H3 & _).
      rewrite E. simpl. auto.
    + rewrite (call_tool_unready _ _ _ _ _ _ He). simpl. auto.
Qed.

(** Once built, the toolkit stays and the constructor is not called
    again, whatever arrives. *)
Lemma built_forever evs : forall st tk,
  terminal_toolkit st = Some tk ->
  terminal_toolkit (serve TerminalToolkit evs st) = Some tk
  /\ factory_calls (serve TerminalToolkit evs st) = factory_calls st.
Proof.
  induction evs as [|ev rest IH]; intros st tk Htk; simpl; [auto|].
  assert (H : terminal_toolkit (handle TerminalToolkit ev st) = Some tk
              /\ factory_calls (handle TerminalToolkit ev st) = factory_calls st).
  { destruct (is_request ev) eqn:Hreq.
    - destruct (request_state ev st Hreq) as (H1 & _ & H3).
      rewrite (ensure_ready _ _ _ Htk) in H1, H3. simpl in *.
      rewrite H1, H3. auto.
    - destruct ev; try discriminate. simpl. auto. }
  destruct H as [H1 H2].
  destruct (IH _ _ H1) as [H3 H4]. unfold serve in *. simpl.
  rewrite H3, H4, H2. auto.
Qed.

(** Assignments to the configuration alone build nothing. *)
Lemma configuring_only pre : forall st,
  Forall (fun ev => is_request ev = false) pre ->
  terminal_toolkit (serve TerminalToolkit pre st) = terminal_toolkit st
  /\ factory_calls (serve TerminalToolkit pre st) = factory_calls st
  /\ world (serve TerminalToolkit pre st) = world st.
Proof.
  induction pre as [|ev rest IH]; intros st Hall; simpl; [auto|].
  inversion Hall as [|? ? Hev Hrest]; subst.
  destruct ev; try discriminate.
  unfold serve in *. simpl.
  destruct (IH (set_toolkit_kwargs kw st) Hrest) as (H1 & H2 & H3).
  rewrite H1, H2, H3. auto.
Qed.

Lemma serve_app evs1 evs2 st :
  serve TerminalToolkit (evs1 ++ evs2) st
  = serve TerminalToolkit evs2 (serve TerminalToolkit evs1 st).
Proof. unfold serve. apply fold_left_app. Qed.

(** The first request on an unbuilt registry calls the constructor with
    the configuration then in force. *)
Lemma first_request req st :
  is_request req = true -> terminal_toolkit st = None ->
  factory_calls (handle TerminalToolkit req st)
  = (factory_calls st
      ++ [(toolkit_kwargs st,
           returned (fst (TerminalToolkit (toolkit_kwargs st) (world st))))])%list
  /\ terminal_toolkit (handle TerminalToolkit req st)
     = match fst (TerminalToolkit (toolkit_kwargs st) (world st)) with
       | Return tk => Some tk
       | Raise _ => None
       end.
Proof.
  intros Hreq Hnone.
  destruct (request_state req st Hreq) as (H1 & _ & H3).
  rewrite H1, H3.
  destruct (TerminalToolkit (toolkit_kwargs st) (world st)) as [[tk|e] w'] eqn:HF.
  - rewrite (ensure_builds _ _ _ _ Hnone HF). simpl. auto.
  - rewrite (ensure_fails _ _ _ _ Hnone HF). simpl. auto.
Qed.

Lemma builds_snoc st' st kw ok :
  factory_calls st' = (factory_calls st ++ [(kw, ok)])%list ->
  builds st' = builds st + (if ok then 1 else 0).
Proof.
  unfold builds. intros ->. rewrite filter_app, length_app. simpl.
  destruct ok; reflexivity.
Qed.

Lemma invariant_step ev st :
  registry_invariant st -> registry_invariant (handle TerminalToolkit ev st).
Proof.
  intros [[Hnone Hb]|[[tk Htk] Hb]].
  - destruct (is_request ev) eqn:Hreq.
    + destruct (first_request ev st Hreq Hnone) as [Hc Ht].
      apply builds_snoc in Hc. rewrite Hb in Hc.
      destruct (fst (TerminalToolkit (toolkit_kwargs st) (world st))) as [tk|e];
        simpl in Hc; [right | left]; eauto.
    + destruct ev; try discriminate. left. simpl. auto.
  - right.
    destruct (built_forever [ev] st tk Htk) as [H1 H2]. simpl in H1, H2.
    split; [eauto|]. unfold builds in *. now rewrite H2.
Qed.

Lemma invariant_serve evs : forall st,
  registry_invariant st -> registry_invariant (serve TerminalToolkit evs st).
Proof.
  induction evs as [|ev rest IH]; intros st H; simpl; [exact H|].
  apply (IH _ (invariant_step ev st H)).
Qed.

End RegistryFacts.

(* ------------------------------------------------------------------ *)
(** * Properties of the schema inference *)
(* ------------------------------------------------------------------ *)

Ltac distinct_names :=
  unfold well_formed; simpl;
  repeat (constructor; [simpl; intuition discriminate|]); constructor.

Section SchemaProperties.

Context {World : Type}.
Variable TerminalToolkit : kwargs -> World -> outcome (Toolkit World) * World.

Implicit Types (f : Callable World) (ps : list Param).

(** C1.  For a callable whose signature reports the parameters [ps],
    the inference returns a descriptor, the one every listing shows
    for that callable.  Its [required] is the names of the parameters
    of [ps] that lack a default, in declaration order: a parameter's
    name is in [required] exactly when the parameter has no default.
    Every parameter of [ps] is a key of [properties].  A parameter
    with a default has that default recorded in its entry and is not
    in [required]. *)
Theorem required_is_the_parameters_without_default f ps :
  inspect_signature f = Return ps ->
  well_formed f ->
  exists t,
    infer {| func := f |} = Return t
    /\ lists_as TerminalToolkit f t
    /\ required (inputSchema t)
       = map p_name
           (filter (fun p => match p_default p with None => true | Some _ => false end)
                   ps)
    /\ (forall p, In p ps ->
          (In (p_name p) (required (inputSchema t)) <-> p_default p = None))
    /\ (forall p, In p ps ->
          In (p_name p) (Dict.keys (properties (inputSchema t))))
    /\ (forall p d, In p ps -> p_default p = Some d ->
          (exists info,
             Dict.get (properties (inputSchema t)) (p_name p) = Some info
             /\ pi_default info = Some d)
          /\ ~ In (p_name p) (required (inputSchema t))).
Proof.
  intros Hsig Hwf.
  pose proof (signature_well_formed f ps Hsig Hwf) as Hnd.
  assert (Hreq : forall p, In p ps ->
            (In (p_name p) (build_required ps) <-> p_default p = None)).
  { intros p Hp. rewrite build_required_iff. split.
    - intros (q & Hq & Hname & Hd).
      now rewrite <- (name_determines ps q p Hnd Hq Hp Hname).
    - intros Hd. exists p. auto. }
  eexists. split; [apply (infer_Return f ps Hsig)|].
  split; [apply infer_lists_as, (infer_Return f ps Hsig)|].
  simpl. split; [reflexivity|]. split; [exact Hreq|]. split.
  - intros p Hp. apply build_parameters_keys. now apply in_map.
  - intros p d Hp Hd. split.
    + exists (param_info_of p). split; [now apply build_parameters_get|].
      unfold param_info_of, default_is_empty. now rewrite Hd.
    + rewrite (Hreq p Hp). congruence.
Qed.

(** C7.  For a callable whose signature reports the parameters [ps],
    the entry of every parameter has the type ["string"] for a [str]
    annotation, ["number"] for [int], ["boolean"] for [bool] and
    ["string"] for any other annotation and for none; so the type of
    every entry of [properties] is one of these three. *)
Theorem kind_is_string_number_or_boolean f ps :
  inspect_signature f = Return ps ->
  well_formed f ->
  exists t,
    infer {| func := f |} = Return t
    /\ lists_as TerminalToolkit f t
    /\ (forall p, In p ps ->
          exists info,
            Dict.get (properties (inputSchema t)) (p_name p) = Some info
            /\ pi_type info
               = match p_annotation p with
                 | Ann_str => "string"
                 | Ann_int => "number"
                 | Ann_bool => "boolean"
                 | Ann_empty | Ann_other _ => "string"
                 end)
    /\ (forall k info, In (k, info) (properties (inputSchema t)) ->
          pi_type info = "string" \/ pi_type info = "number"
          \/ pi_type info = "boolean").
Proof.
  intros Hsig Hwf.
  pose proof (signature_well_formed f ps Hsig Hwf) as Hnd.
  eexists. split; [apply (infer_Return f ps Hsig)|].
  split; [apply infer_lists_as, (infer_Return f ps Hsig)|].
  simpl. split.
  - intros p Hp. exists (param_info_of p).
    split; [now apply build_parameters_get|].
    apply surfaced_kind_correct.
  - intros k info Hin.
    destruct (build_parameters_entries ps k info Hin) as (p & _ & _ & ->).
    simpl. rewrite surfaced_kind_correct. apply surfaced_kind_range.
Qed.

(** C8.  For a method-backed callable with receiver parameter [r], the
    inference returns a descriptor, the one every listing shows for
    that callable; the name of [r] is neither a key of [properties]
    nor in [required], and every other declared parameter is a key of
    [properties]. *)
Theorem receiver_is_not_in_the_schema f (r : Param) :
  receiver f = Some r ->
  well_formed f ->
  exists t,
    infer {| func := f |} = Return t
    /\ lists_as TerminalToolkit f t
    /\ ~ In (p_name r) (Dict.keys (properties (inputSchema t)))
    /\ ~ In (p_name r) (required (inputSchema t))
    /\ (forall p, In p (c_params f) -> p <> r ->
          In (p_name p) (Dict.keys (properties (inputSchema t)))).
Proof.
  intros Hr Hwf.
  destruct (receiver_signature f r Hr) as (rest & Hps & Hsig).
  unfold well_formed in Hwf. rewrite Hps in Hwf. simpl in Hwf.
  inversion Hwf as [|? ? Hfresh _]; subst.
  eexists. split; [apply (infer_Return f rest Hsig)|].
  split; [apply infer_lists_as, (infer_Return f rest Hsig)|].
  simpl. split; [now rewrite build_parameters_keys|]. split.
  - rewrite build_required_iff. intros (p & Hp & Hname & _).
    apply Hfresh. rewrite <- Hname. now apply in_map.
  - intros p Hp Hne. rewrite Hps in Hp. destruct Hp as [->|Hp]; [contradiction|].
    apply build_parameters_keys. now apply in_map.
Qed.

(** C6, as amended.  For a callable that has a signature, the
    inference returns a descriptor, the one every listing shows for
    that callable.  When the documentation string is not empty, the
    description is its first line, stripped.  When it is absent or
    empty, the description is the stripped first line of
    ["Execute <name>"], which is ["Execute <name>"] itself for a name
    that is not empty and holds no white space. *)
Theorem description_is_first_line_or_fallback f ps :
  inspect_signature f = Return ps ->
  exists t,
    infer {| func := f |} = Return t
    /\ lists_as TerminalToolkit f t
    /\ (forall d, c_doc f = Some d -> d <> "" ->
          description t = PyStr.strip (PyStr.first_line d))
    /\ (c_doc f = None \/ c_doc f = Some "" ->
          description t = PyStr.strip (PyStr.first_line ("Execute " ++ c_name f)))
    /\ (c_doc f = None \/ c_doc f = Some "" ->
          PyStr.spaceless (c_name f) = true -> c_name f <> "" ->
          description t = "Execute " ++ c_name f).
Proof.
  intros Hsig.
  eexists. split; [apply (infer_Return f ps Hsig)|].
  split; [apply infer_lists_as, (infer_Return f ps Hsig)|].
  cbn [description].
  assert (Hfb : c_doc f = None \/ c_doc f = Some "" ->
                doc_or (c_doc f) ("Execute " ++ c_name f) = "Execute " ++ c_name f).
  { intros [E|E]; rewrite E; reflexivity. }
  split; [|split].
  - intros d Hd Hne. rewrite Hd. unfold doc_or.
    now rewrite (PyStrFacts.truthy_true d Hne).
  - intros H. now rewrite (Hfb H).
  - intros H Hs Hne. rewrite (Hfb H).
    now apply PyStrFacts.generated_text_fixed.
Qed.

(** C9, as amended.  In a listing that returns, every name in a
    descriptor's [required] is a key of its [properties]; the names of
    the descriptors are the names of the registered callables, in
    order, so they are pairwise distinct when those are. *)
Theorem required_within_properties_and_names_follow_registry
  (st st' : State World) (tools : list Tool) :
  list_tools TerminalToolkit st = (Return tools, st') ->
  (forall t k, In t tools -> In k (required (inputSchema t)) ->
     In k (Dict.keys (properties (inputSchema t))))
  /\ map name tools = map (fun ft => c_name (func ft)) (registered st')
  /\ (NoDup (map (fun ft => c_name (func ft)) (registered st')) ->
      NoDup (map name tools)).
Proof.
  intros Hl.
  assert (Hnames : map name tools = map (fun ft => c_name (func ft)) (registered st')).
  { apply list_tools_Return in Hl as [_ Hall].
    induction Hall as [|ft t fts ts Hi _ IH]; simpl; [reflexivity|].
    now rewrite IH, (infer_name ft t Hi). }
  split; [|split; [exact Hnames | now rewrite Hnames]].
  intros t k Ht Hk.
  destruct (listed_descriptor _ _ _ _ _ Hl Ht) as (ft & _ & Hi).
  unfold infer in Hi.
  destruct (inspect_signature (func ft)) as [ps|e]; [|discriminate].
  inversion Hi; subst; simpl in *.
  apply build_required_iff in Hk as (p & Hp & <- & _).
  apply build_parameters_keys. now apply in_map.
Qed.

End SchemaProperties.

(** C1 at [echo(x: str, times: int = 1)], the first tool of the sample
    listing: [required] is [["x"]]. *)
Lemma required_of_echo :
  exists t,
    nth_error
      (match fst (list_tools Sample.factory (initial_state tt)) with
       | Return tools => tools
       | Raise _ => []
       end) 0 = Some t
    /\ required (inputSchema t) = ["x"]
    /\ Dict.keys (properties (inputSchema t)) = ["x"; "times"].
Proof.
  destruct (required_is_the_parameters_without_default
              Sample.factory Sample.echo (c_params Sample.echo))
    as (t & Hi & Hlist & Hreq & _); [reflexivity | distinct_names |].
  exists t. split; [|split; [exact Hreq|]].
  - destruct (list_tools Sample.factory (initial_state tt)) as [r st'] eqn:E.
    assert (exists tools, r = Return tools) as [tools ->].
    { vm_compute in E. inversion E. eauto. }
    apply (Hlist (initial_state tt) tools st' 0 E).
    replace st' with (snd (list_tools Sample.factory (initial_state tt)))
      by now rewrite E.
    reflexivity.
  - injection Hi as <-. reflexivity.
Defined.

(** C7 at the bound method [shell_exec]: [block: bool] is ["boolean"]. *)
Lemma kinds_of_shell_exec :
  exists t info,
    infer {| func := Sample.shell_exec |} = Return t
    /\ Dict.get (properties (inputSchema t)) "block" = Some info
    /\ pi_type info = "boolean".
Proof.
  destruct (kind_is_string_number_or_boolean
              Sample.factory Sample.shell_exec (tl (c_params Sample.shell_exec)))
    as (t & Hi & _ & Hkind & _); [reflexivity | distinct_names |].
  destruct (Hkind (mkParam "block" POSITIONAL_OR_KEYWORD Ann_bool (Some (VBool true))))
    as (info & Hget & Htype); [simpl; auto|].
  exists t, info. auto.
Defined.

(** C8 at the bound method [shell_exec]: no ["self"] in the schema. *)
Lemma shell_exec_has_no_self :
  exists t,
    infer {| func := Sample.shell_exec |} = Return t
    /\ ~ In "self" (Dict.keys (properties (inputSchema t)))
    /\ ~ In "self" (required (inputSchema t)).
Proof.
  destruct (receiver_is_not_in_the_schema
              Sample.factory Sample.shell_exec
              (mkParam "self" POSITIONAL_OR_KEYWORD Ann_empty None))
    as (t & Hi & _ & Hk & Hr & _); [reflexivity | distinct_names |].
  exists t. auto.
Defined.

(** C6, the claim as stated fails at an empty documentation string: the
    first line of [""] stripped is [""], the description is the
    fallback. *)
Lemma empty_docstring_gets_the_fallback :
  c_doc Sample.boom = Some ""
  /\ exists t,
       infer {| func := Sample.boom |} = Return t
       /\ description t = "Execute boom"
       /\ description t <> PyStr.strip (PyStr.first_line "").
Proof.
  split; [reflexivity|]. eexists. split; [reflexivity|].
  split; [reflexivity | discriminate].
Qed.

(** C6 as amended, at [echo] (documented) . *)
Lemma description_of_echo :
  exists t,
    infer {| func := Sample.echo |} = Return t
    /\ description t = "Echo the text.".
Proof.
  destruct (description_is_first_line_or_fallback
              Sample.factory Sample.echo (c_params Sample.echo))
    as (t & Hi & _ & Hdoc & _); [reflexivity|].
  exists t. split; [exact Hi|].
  apply (Hdoc _ eq_refl). discriminate.
Defined.

(** C9, the claim as stated fails on a toolkit that exposes a callable
    twice: the listing holds two descriptors named ["echo"]. *)
Lemma twin_listing_repeats_a_name :
  exists tools st',
    list_tools Sample.twin_factory (initial_state tt) = (Return tools, st')
    /\ map name tools = ["echo"; "echo"]
    /\ ~ NoDup (map name tools).
Proof.
  do 2 eexists. split; [reflexivity|]. split; [reflexivity|].
  simpl. intros H. inversion H as [|? ? Hnot _]. apply Hnot. now left.
Qed.

(** C9 as amended, at the sample toolkit. *)
Lemma names_of_sample_listing :
  exists tools st',
    list_tools Sample.factory (initial_state tt) = (Return tools, st')
    /\ map name tools = ["echo"; "shell_exec"; "boom"; "halt"]
    /\ NoDup (map name tools).
Proof.
  destruct (list_tools Sample.factory (initial_state tt)) as [r st'] eqn:E.
  assert (exists tools, r = Return tools) as [tools ->].
  { vm_compute in E. inversion E. eauto. }
  destruct (required_within_properties_and_names_follow_registry
              Sample.factory (initial_state tt) st' tools E) as (_ & Hn & Hnd).
  assert (Hst : st' = snd (list_tools Sample.factory (initial_state tt)))
    by now rewrite E.
  exists tools, st'. split; [reflexivity|].
  rewrite Hst in Hn, Hnd. split; [exact Hn|].
  apply Hnd. simpl. repeat (constructor; [simpl; intuition discriminate|]). constructor.
Defined.

(* ------------------------------------------------------------------ *)
(** * Properties of the dispatch *)
(* ------------------------------------------------------------------ *)

Section DispatchProperties.

Context {World : Type}.
Variable TerminalToolkit : kwargs -> World -> outcome (Toolkit World) * World.

Implicit Types (st : State World) (f : Callable World).

(** C3.  When the registry is there, or is built by this request, and
    no registered callable has the name asked for, [call_tool] returns
    the single text block ["Tool '<name>' not found"]; it does not
    raise. *)
Theorem unknown_tool_is_reported st st1 (name : string) (arguments : kwargs) :
  ensure_toolkit TerminalToolkit st = (Return tt, st1) ->
  (forall ft, In ft (registered st1) -> c_name (func ft) <> name) ->
  call_tool TerminalToolkit name arguments st
  = (Return [ {| content_type := "text";
                 text := "Tool '" ++ name ++ "' not found" |} ],
     st1).
Proof.
  intros He Hnone.
  destruct (ensure_Return_toolkit _ _ _ _ He) as [tk Htk].
  rewrite (call_tool_ready _ _ _ _ _ _ He).
  apply (try_not_found name arguments st1 tk Htk).
  apply find_target_None. unfold registered in Hnone. now rewrite Htk in Hnone.
Qed.

(** C4.  Whatever [call_tool] returns is one text block.  When the
    callable asked for is found and returns [v], the text of that
    block is [v] itself for a string, and [str(v)] otherwise.  With the
    registry there or built by the request, [call_tool] does return
    such a block, unless a callable raises an exception that is not an
    [Exception]. *)
Theorem response_is_one_text_block st (name : string) (arguments : kwargs) :
  (forall resp st',
     call_tool TerminalToolkit name arguments st = (Return resp, st') ->
     exists s, resp = [ {| content_type := "text"; text := s |} ])
  /\ (forall st1 f v w',
        ensure_toolkit TerminalToolkit st = (Return tt, st1) ->
        find_target name (registered st1) = Some f ->
        c_call f arguments (world st1) = (Return v, w') ->
        call_tool TerminalToolkit name arguments st
        = (Return [ {| content_type := "text";
                       text := match v with
                               | VStr s => s
                               | other => py_str other
                               end |} ],
           set_world w' st1))
  /\ (forall st1,
        ensure_toolkit TerminalToolkit st = (Return tt, st1) ->
        (exists s st',
           call_tool TerminalToolkit name arguments st
           = (Return [ {| content_type := "text"; text := s |} ], st'))
        \/ (exists e st',
              call_tool TerminalToolkit name arguments st = (Raise e, st')
              /\ is_Exception e = false)).
Proof.
  split; [|split].
  - intros resp st' H.
    destruct (ensure_toolkit TerminalToolkit st) as [[u|e] st1] eqn:He.
    + rewrite (call_tool_ready _ _ _ _ _ _ He) in H.
      destruct (try_shape name arguments st1) as (r & s' & E & _ & _ & _ & Hr).
      rewrite E in H. inversion H; subst. exact Hr.
    + rewrite (call_tool_unready _ _ _ _ _ _ He) in H. discriminate.
  - intros st1 f v w' He Hfind Hcall.
    destruct (ensure_Return_toolkit _ _ _ _ He) as [tk Htk].
    unfold registered in Hfind. rewrite Htk in Hfind.
    rewrite (call_tool_ready _ _ _ _ _ _ He).
    apply (try_returns name arguments st1 tk f v w' Htk Hfind Hcall).
  - intros st1 He. rewrite (call_tool_ready _ _ _ _ _ _ He).
    destruct (try_shape name arguments st1) as (r & s' & E & _ & _ & _ & Hr).
    rewrite E. destruct r as [resp|e].
    + destruct Hr as [s ->]. left. exists s, s'. reflexivity.
    + right. exists e, s'. split; [reflexivity | exact Hr].
Qed.

(** C2, as amended.  When the callable asked for is found and raises
    an exception whose class derives from [Exception], [call_tool]
    returns the single text block
    ["Error calling tool <name>: <str(e)>"], the same text is logged
    as an error, nothing is raised, and the registry is left as it
    was: the next request finds it ready. *)
Theorem tool_Exception_is_reported
  st st1 (name : string) (arguments : kwargs) f (e : PyExc) (w' : World) :
  ensure_toolkit TerminalToolkit st = (Return tt, st1) ->
  find_target name (registered st1) = Some f ->
  c_call f arguments (world st1) = (Raise e, w') ->
  is_Exception e = true ->
  exists st2,
    call_tool TerminalToolkit name arguments st
    = (Return [ {| content_type := "text";
                   text := "Error calling tool " ++ name ++ ": " ++ exc_str e |} ],
       st2)
    /\ log st2
       = (log st1
            ++ [(ERROR, ("Error calling tool " ++ name ++ ": " ++ exc_str e)%string)])%list
    /\ terminal_toolkit st2 = terminal_toolkit st1
    /\ ensure_toolkit TerminalToolkit st2 = (Return tt, st2).
Proof.
  intros He Hfind Hcall Hexc.
  destruct (ensure_Return_toolkit _ _ _ _ He) as [tk Htk].
  unfold registered in Hfind. rewrite Htk in Hfind.
  rewrite (call_tool_ready _ _ _ _ _ _ He).
  rewrite (try_raises name arguments st1 tk f e w' Htk Hfind Hcall), Hexc.
  eexists. split; [reflexivity|]. split; [reflexivity|]. split; [reflexivity|].
  apply ensure_ready with tk. exact Htk.
Qed.

(** C10.  On an unbuilt registry whose constructor raises [e], both
    handlers raise [e], whatever its class, and leave the registry
    unbuilt; the same [e] raised by a registered callable is turned
    into a text block when its class derives from [Exception]. *)
Theorem construction_failure_propagates st (e : PyExc) (w' : World) :
  terminal_toolkit st = None ->
  TerminalToolkit (toolkit_kwargs st) (world st) = (Raise e, w') ->
  (forall name arguments,
     call_tool TerminalToolkit name arguments st = (Raise e, failed_state w' st))
  /\ list_tools TerminalToolkit st = (Raise e, failed_state w' st)
  /\ terminal_toolkit (failed_state w' st) = None
  /\ (forall st1 tk name arguments f w1,
        terminal_toolkit st1 = Some tk ->
        find_target name (tk_tools tk) = Some f ->
        c_call f arguments (world st1) = (Raise e, w1) ->
        is_Exception e = true ->
        fst (call_tool TerminalToolkit name arguments st1)
        = Return [ {| content_type := "text";
                      text := "Error calling tool " ++ name ++ ": " ++ exc_str e |} ]).
Proof.
  intros Hnone HF.
  pose proof (ensure_fails _ _ _ _ Hnone HF) as He.
  split; [|split; [|split]].
  - intros name arguments. apply (call_tool_unready _ _ _ _ _ _ He).
  - rewrite list_tools_unfold, He. reflexivity.
  - exact Hnone.
  - intros st1 tk name arguments f w1 Htk Hfind Hcall Hexc.
    rewrite (call_tool_ready _ name arguments st1 st1 tt (ensure_ready _ _ _ Htk)).
    rewrite (try_raises name arguments st1 tk f e w1 Htk Hfind Hcall), Hexc.
    reflexivity.
Qed.

End DispatchProperties.

(** C3 at the name ["nope"]. *)
Lemma nope_is_not_found :
  exists st',
    call_tool Sample.factory "nope" [] (initial_state tt)
    = (Return [ {| content_type := "text"; text := "Tool 'nope' not found" |} ], st').
Proof.
  eexists.
  apply (unknown_tool_is_reported Sample.factory (initial_state tt) _ "nope" []).
  - reflexivity.
  - simpl. intros ft [<-|[<-|[<-|[<-|[]]]]]; discriminate.
Defined.

(** C4 at [echo]: a string comes back as it is, an integer as its
    decimal text. *)
Lemma echo_answers_in_one_block :
  fst (call_tool Sample.factory "echo" [("x", VStr "hi")] Sample.ready)
  = Return [ {| content_type := "text"; text := "hi" |} ]
  /\ fst (call_tool Sample.factory "echo" [("x", VInt (-42))] Sample.ready)
     = Return [ {| content_type := "text"; text := "-42" |} ]
  /\ exists s,
       fst (call_tool Sample.factory "halt" [] (initial_state tt)) = Raise KeyboardInterrupt
       /\ fst (call_tool Sample.factory "boom" [] (initial_state tt))
          = Return [ {| content_type := "text"; text := s |} ].
Proof.
  split; [|split].
  - destruct (response_is_one_text_block Sample.factory Sample.ready
                "echo" [("x", VStr "hi")]) as (_ & H & _).
    now rewrite (H Sample.ready Sample.echo (VStr "hi") tt eq_refl eq_refl eq_refl).
  - destruct (response_is_one_text_block Sample.factory Sample.ready
                "echo" [("x", VInt (-42))]) as (_ & H & _).
    now rewrite (H Sample.ready Sample.echo (VInt (-42)) tt eq_refl eq_refl eq_refl).
  - destruct (response_is_one_text_block Sample.factory (initial_state tt) "boom" [])
      as [H _].
    destruct (call_tool Sample.factory "boom" [] (initial_state tt)) as [r st'] eqn:E.
    assert (exists resp, r = Return resp) as [resp ->].
    { vm_compute in E. inversion E. eauto. }
    destruct (H resp st' eq_refl) as [s ->].
    exists s. split; reflexivity.
Defined.

(** C2, the claim as stated fails for a callable that raises
    [KeyboardInterrupt]: the callable is found, it raises, and the
    exception leaves [call_tool]. *)
Lemma KeyboardInterrupt_leaves_call_tool :
  find_target "halt" (registered Sample.ready) = Some Sample.halt
  /\ c_call Sample.halt [] (world Sample.ready) = (Raise KeyboardInterrupt, tt)
  /\ call_tool Sample.factory "halt" [] Sample.ready
     = (Raise KeyboardInterrupt, Sample.ready).
Proof. repeat split. Qed.

(** C2 as amended, at [boom], which raises [ValueError("bad input")]. *)
Lemma boom_is_reported :
  exists st2,
    call_tool Sample.factory "boom" [] (initial_state tt)
    = (Return [ {| content_type := "text";
                   text := "Error calling tool boom: bad input" |} ], st2)
    /\ terminal_toolkit st2 = Some Sample.toolkit.
Proof.
  destruct (tool_Exception_is_reported Sample.factory (initial_state tt)
              (built_state Sample.toolkit tt (initial_state tt))
              "boom" [] Sample.boom (ValueError "bad input") tt)
    as (st2 & Hcall & _ & Htk & _); try reflexivity.
  exists st2. split; [exact Hcall | exact Htk].
Defined.

(** C10 at a constructor that raises [ValueError("bad configuration")]. *)
Lemma bad_configuration_is_fatal :
  fst (call_tool Sample.failing_factory "echo" [] (initial_state tt))
  = Raise (ValueError "bad configuration")
  /\ fst (list_tools Sample.failing_factory (initial_state tt))
     = Raise (ValueError "bad configuration").
Proof.
  destruct (construction_failure_propagates Sample.failing_factory
              (initial_state tt) (ValueError "bad configuration") tt eq_refl eq_refl)
    as (Hcall & Hlist & _).
  rewrite (Hcall "echo" []), Hlist. split; reflexivity.
Defined.

(* ------------------------------------------------------------------ *)
(** * Properties of the registry *)
(* ------------------------------------------------------------------ *)

Section RegistryProperties.

Context {World : Type}.
Variable TerminalToolkit : kwargs -> World -> outcome (Toolkit World) * World.

Implicit Types (st : State World).

(** C5, as amended.  From the start of the process, let assignments to
    the configuration be followed by a first request and by any events
    at all.  When the constructor returns a toolkit for the
    configuration in force at that first request, it is called that
    one time only, with that configuration, and its toolkit is the one
    kept, whatever is assigned to the configuration later.  Besides:
    over any events the constructor returns a toolkit at most once; a
    request on an unbuilt registry calls the constructor once with the
    configuration then in force; a request on a built registry does
    not call it. *)
Theorem registry_is_built_once
  (w : World) (pre rest : list event) (req : event) (tk : Toolkit World) (w' : World) :
  Forall (fun ev => is_request ev = false) pre ->
  is_request req = true ->
  TerminalToolkit (toolkit_kwargs (serve TerminalToolkit pre (initial_state w))) w
  = (Return tk, w') ->
  factory_calls (serve TerminalToolkit (pre ++ req :: rest) (initial_state w))
  = [(toolkit_kwargs (serve TerminalToolkit pre (initial_state w)), true)]
  /\ terminal_toolkit (serve TerminalToolkit (pre ++ req :: rest) (initial_state w))
     = Some tk
  /\ (forall evs, builds (serve TerminalToolkit evs (initial_state w)) <= 1)
  /\ (forall st r, is_request r = true -> terminal_toolkit st = None ->
        exists ok,
          factory_calls (handle TerminalToolkit r st)
          = (factory_calls st ++ [(toolkit_kwargs st, ok)])%list)
  /\ (forall st r tk', terminal_toolkit st = Some tk' ->
        factory_calls (handle TerminalToolkit r st) = factory_calls st
        /\ terminal_toolkit (handle TerminalToolkit r st) = Some tk').
Proof.
  intros Hpre Hreq HF.
  destruct (configuring_only TerminalToolkit pre (initial_state w) Hpre)
    as (Hnone & Hcalls & Hworld).
  simpl in Hnone, Hcalls, Hworld.
  set (st0 := serve TerminalToolkit pre (initial_state w)) in *.
  destruct (first_request TerminalToolkit req st0 Hreq Hnone) as [Hc Ht].
  rewrite Hworld, HF, Hcalls in Hc. rewrite Hworld, HF in Ht. simpl in Hc, Ht.
  destruct (built_forever TerminalToolkit rest _ _ Ht) as [Hkeep Hsame].
  rewrite serve_app. fold st0.
  change (serve TerminalToolkit (req :: rest) st0)
    with (serve TerminalToolkit rest (handle TerminalToolkit req st0)).
  split; [now rewrite Hsame|]. split; [exact Hkeep|]. split; [|split].
  - intros evs.
    assert (Hinv : registry_invariant (initial_state w)) by (left; auto).
    destruct (invariant_serve TerminalToolkit evs _ Hinv) as [[_ Hb]|[_ Hb]];
      rewrite Hb; auto.
  - intros st r Hr Hn.
    destruct (first_request TerminalToolkit r st Hr Hn) as [Hc' _]. eauto.
  - intros st r tk' Htk.
    destruct (built_forever TerminalToolkit [r] st tk' Htk) as [H1 H2]. auto.
Qed.

End RegistryProperties.

(** C5, the claim as stated fails when the constructor raises: the
    registry stays unbuilt and the second request calls the constructor
    again. *)
Lemma failing_constructor_is_called_again :
  factory_calls (serve Sample.failing_factory [ListTools; ListTools] (initial_state tt))
  = [([], false); ([], false)]
  /\ length (factory_calls
               (serve Sample.failing_factory [ListTools; ListTools] (initial_state tt)))
     <> 1.
Proof. split; [reflexivity | discriminate]. Qed.

(** C5 as amended: the configuration set before the first request is
    used, the one set after it is not. *)
Lemma first_configuration_wins :
  factory_calls
    (serve Sample.factory
       ([SetKwargs [("timeout", VInt 20)]]
        ++ ListTools
           :: [SetKwargs [("timeout", VInt 5)]; CallTool "echo" [("x", VStr "hi")];
               ListTools])
       (initial_state tt))
  = [([("timeout", VInt 20)], true)].
Proof.
  destruct (registry_is_built_once Sample.factory tt
              [SetKwargs [("timeout", VInt 20)]]
              [SetKwargs [("timeout", VInt 5)]; CallTool "echo" [("x", VStr "hi")];
               ListTools]
              ListTools Sample.toolkit tt) as (Hcalls & _).
  - repeat constructor.
  - reflexivity.
  - reflexivity.
  - exact Hcalls.
Defined.

(* ------------------------------------------------------------------ *)
(** * Further facts on strings and dictionaries *)
(* ------------------------------------------------------------------ *)

Module PyTextFacts.
Import PyStr PyText.

Lemma lstrip_head s : starts_with_space (lstrip s) = false.
Proof.
  induction s as [|c rest IH]; simpl; [reflexivity|].
  destruct (isspace c) eqn:Hc; [exact IH | simpl; exact Hc].
Qed.

Lemma rstrip_tail s : ends_with_space (rstrip s) = false.
Proof.
  induction s as [|c rest IH]; simpl; [reflexivity|].
  destruct (rstrip rest) as [|c' kept] eqn:E.
  - destruct (isspace c) eqn:Hc; simpl; [reflexivity | exact Hc].
  - exact IH.
Qed.

Lemma rstrip_head s : starts_with_space s = false -> starts_with_space (rstrip s) = false.
Proof.
  destruct s as [|c rest]; simpl; [reflexivity|]. intros Hc.
  destruct (rstrip rest); [rewrite Hc|]; simpl; exact Hc.
Qed.

Lemma rstrip_empty s : starts_with_space s = false -> rstrip s = "" -> s = "".
Proof.
  destruct s as [|c rest]; simpl; [reflexivity|]. intros Hc.
  destruct (rstrip rest); [rewrite Hc|]; discriminate.
Qed.

Lemma first_line_one_line s : has_newline (first_line s) = false.
Proof.
  induction s as [|c rest IH]; simpl; [reflexivity|].
  destruct (Ascii.eqb c newline) eqn:Hc; simpl; [reflexivity|].
  now rewrite Hc.
Qed.

Lemma lstrip_one_line s : has_newline s = false -> has_newline (lstrip s) = false.
Proof.
  induction s as [|c rest IH]; simpl; [reflexivity|]. intros H.
  apply orb_false_iff in H as [Hc Hrest].
  destruct (isspace c); [now apply IH | simpl; now rewrite Hc, Hrest].
Qed.

Lemma rstrip_one_line s : has_newline s = false -> has_newline (rstrip s) = false.
Proof.
  induction s as [|c rest IH]; simpl; [reflexivity|]. intros H.
  apply orb_false_iff in H as [Hc Hrest]. specialize (IH Hrest).
  destruct (rstrip rest) as [|c' kept].
  - destruct (isspace c); simpl; [reflexivity | now rewrite Hc].
  - simpl in *. now rewrite Hc, IH.
Qed.

Lemma lstrip_blank s : lstrip s = "" <-> blank s = true.
Proof.
  induction s as [|c rest IH]; simpl; [tauto|].
  destruct (isspace c); simpl; [exact IH|]. split; discriminate.
Qed.

Lemma strip_blank s : strip s = "" <-> blank s = true.
Proof.
  unfold strip. rewrite <- lstrip_blank. split.
  - apply rstrip_empty, lstrip_head.
  - intros ->. reflexivity.
Qed.

(** The stripped first line of any text is one line without white
    space at either end. *)
Lemma strip_first_line_shape s :
  has_newline (strip (first_line s)) = false
  /\ starts_with_space (strip (first_line s)) = false
  /\ ends_with_space (strip (first_line s)) = false.
Proof.
  unfold strip. split; [|split].
  - apply rstrip_one_line, lstrip_one_line, first_line_one_line.
  - apply rstrip_head, lstrip_head.
  - apply rstrip_tail.
Qed.

End PyTextFacts.

Section MoreParameterLoop.

Lemma keys_set_fresh {V} (d : Dict.t V) k v :
  ~ In k (Dict.keys d) -> Dict.keys (Dict.set d k v) = (Dict.keys d ++ [k])%list.
Proof.
  unfold Dict.keys.
  induction d as [|[k0 v0] rest IH]; simpl; intros Hk; [reflexivity|].
  destruct (String.eqb_spec k0 k) as [->|Hne]; [tauto|].
  simpl. rewrite IH by tauto. reflexivity.
Qed.

Lemma fill_keys_fresh ps : forall acc,
  NoDup (map p_name ps) ->
  (forall p, In p ps -> ~ In (p_name p) (Dict.keys acc)) ->
  Dict.keys (fill acc ps) = (Dict.keys acc ++ map p_name ps)%list.
Proof.
  induction ps as [|p rest IH]; intros acc Hnd Hfresh; simpl.
  - now rewrite app_nil_r.
  - inversion Hnd as [|? ? Hp Hrest]; subst.
    change (fill acc (p :: rest))
      with (fill (Dict.set acc (p_name p) (param_info_of p)) rest).
    rewrite IH; [|exact Hrest|].
    + rewrite keys_set_fresh by (apply Hfresh; now left).
      now rewrite <- app_assoc.
    + intros q Hq Hin. apply DictFacts.keys_set in Hin as [E|Hin].
      * apply Hp. rewrite <- E. now apply in_map.
      * apply (Hfresh q); [now right | exact Hin].
Qed.

Lemma build_parameters_keys_ordered ps :
  NoDup (map p_name ps) -> Dict.keys (build_parameters ps) = map p_name ps.
Proof.
  intros Hnd. unfold build_parameters.
  rewrite (fill_keys_fresh ps [] Hnd); [reflexivity|]. intros p _ [].
Qed.

Lemma param_info_default (param : Param) :
  pi_default (param_info_of param) = p_default param.
Proof.
  unfold param_info_of, default_is_empty. simpl.
  destruct (p_default param); reflexivity.
Qed.

Lemma filter_map_names (g : string -> bool) ps :
  filter g (map p_name ps) = map p_name (filter (fun p => g (p_name p)) ps).
Proof.
  induction ps as [|p rest IH]; simpl; [reflexivity|].
  destruct (g (p_name p)); simpl; now rewrite IH.
Qed.

End MoreParameterLoop.

(* ------------------------------------------------------------------ *)
(** * Further properties of the schema inference *)
(* ------------------------------------------------------------------ *)

Section MoreSchemaProperties.

Context {World : Type}.
Variable TerminalToolkit : kwargs -> World -> outcome (Toolkit World) * World.

Implicit Types (f : Callable World) (ps : list Param) (t : Tool).

(** X1.  The keys of [properties] are the names of the signature's
    parameters, each once and in the order of declaration. *)
Theorem properties_follow_the_declaration f ps t :
  inspect_signature f = Return ps ->
  well_formed f ->
  infer {| func := f |} = Return t ->
  Dict.keys (properties (inputSchema t)) = map p_name ps
  /\ NoDup (Dict.keys (properties (inputSchema t))).
Proof.
  intros Hsig Hwf Hi.
  pose proof (signature_well_formed f ps Hsig Hwf) as Hnd.
  rewrite (infer_Return f ps Hsig) in Hi. inversion Hi; subst; simpl.
  rewrite (build_parameters_keys_ordered ps Hnd). auto.
Qed.

(** X2.  [required] can be read off [properties]: it is the keys whose
    entry has no ["default"], in the order of the keys. *)
Theorem required_is_the_keys_without_default f ps t :
  inspect_signature f = Return ps ->
  well_formed f ->
  infer {| func := f |} = Return t ->
  required (inputSchema t)
  = filter
      (fun k =>
         match Dict.get (properties (inputSchema t)) k with
         | Some info => match pi_default info with None => true | Some _ => false end
         | None => false
         end)
      (Dict.keys (properties (inputSchema t))).
Proof.
  intros Hsig Hwf Hi.
  pose proof (signature_well_formed f ps Hsig Hwf) as Hnd.
  rewrite (infer_Return f ps Hsig) in Hi. inversion Hi; subst; simpl.
  rewrite (build_parameters_keys_ordered ps Hnd), filter_map_names.
  unfold build_required. f_equal. apply filter_ext_in.
  intros p Hp. rewrite (build_parameters_get ps p Hnd Hp), param_info_default.
  reflexivity.
Qed.

(** X3.  Every entry of [properties] is described by ["Parameter "]
    followed by its own key, so no description is empty. *)
Theorem every_parameter_is_described (ft : FunctionTool World) t k info :
  infer ft = Return t ->
  In (k, info) (properties (inputSchema t)) ->
  pi_description info = "Parameter " ++ k /\ pi_description info <> "".
Proof.
  intros Hi Hin. unfold infer in Hi.
  destruct (inspect_signature (func ft)) as [ps|e]; [|discriminate].
  inversion Hi; subst; simpl in Hin.
  destruct (build_parameters_entries ps k info Hin) as (p & _ & -> & ->).
  simpl. split; [reflexivity | discriminate].
Qed.

(** X4.  Whatever the documentation string and the name, a description
    is one line: it holds no line feed and neither starts nor ends with
    white space. *)
Theorem description_is_one_stripped_line (ft : FunctionTool World) t :
  infer ft = Return t ->
  PyText.has_newline (description t) = false
  /\ PyText.starts_with_space (description t) = false
  /\ PyText.ends_with_space (description t) = false.
Proof.
  intros Hi. unfold infer in Hi.
  destruct (inspect_signature (func ft)) as [ps|e]; [|discriminate].
  inversion Hi; subst; simpl. apply PyTextFacts.strip_first_line_shape.
Qed.

(** X5.  A description is empty exactly when the documentation string is
    not empty and its first line is blank (as when the text starts on
    the line after the opening quotes); the fallback is not used
    then. *)
Theorem description_is_empty_for_a_blank_first_line (ft : FunctionTool World) t :
  infer ft = Return t ->
  (description t = ""
   <-> exists d, c_doc (func ft) = Some d /\ d <> ""
                 /\ PyText.blank (PyStr.first_line d) = true).
Proof.
  intros Hi. unfold infer in Hi.
  destruct (inspect_signature (func ft)) as [ps|e]; [|discriminate].
  inversion Hi; subst; cbn [description]. clear Hi.
  rewrite PyTextFacts.strip_blank.
  destruct (c_doc (func ft)) as [[|c d]|]; simpl doc_or.
  - split; [discriminate|]. intros (d & E & Hne & _). inversion E; subst. tauto.
  - split.
    + intros H. exists (String c d). repeat split; [discriminate | exact H].
    + intros (d' & E & _ & H). inversion E; subst. exact H.
  - split; [discriminate|]. intros (d & E & _). discriminate.
Qed.

End MoreSchemaProperties.

(** X1 at [shell_exec]: the receiver aside, the keys are the declared
    names in order. *)
Lemma keys_of_shell_exec :
  exists t,
    infer {| func := Sample.shell_exec |} = Return t
    /\ Dict.keys (properties (inputSchema t)) = ["id"; "command"; "block"; "env"].
Proof.
  eexists. split; [reflexivity|].
  apply (properties_follow_the_declaration Sample.shell_exec
           (tl (c_params Sample.shell_exec)) _ eq_refl).
  - distinct_names.
  - reflexivity.
Defined.

(** X2 at [shell_exec]. *)
Lemma required_of_shell_exec :
  exists t,
    infer {| func := Sample.shell_exec |} = Return t
    /\ required (inputSchema t) = ["id"; "command"].
Proof.
  eexists. split; [reflexivity|].
  rewrite (required_is_the_keys_without_default Sample.shell_exec
             (tl (c_params Sample.shell_exec)) _ eq_refl);
    [reflexivity | distinct_names | reflexivity].
Defined.

(** X3 at the parameter [times] of [echo]. *)
Lemma times_is_described :
  exists t info,
    infer {| func := Sample.echo |} = Return t
    /\ Dict.get (properties (inputSchema t)) "times" = Some info
    /\ pi_description info = "Parameter times".
Proof.
  do 2 eexists. split; [reflexivity|]. split; [reflexivity|].
  eapply (every_parameter_is_described {| func := Sample.echo |} _ "times" _ eq_refl).
  simpl. right. left. reflexivity.
Defined.

(** X4 at [echo], whose documentation has two lines and white space
    around the first. *)
Lemma description_of_echo_is_one_line :
  exists t,
    infer {| func := Sample.echo |} = Return t
    /\ PyText.has_newline (description t) = false
    /\ PyText.ends_with_space (description t) = false.
Proof.
  eexists. split; [reflexivity|].
  destruct (description_is_one_stripped_line {| func := Sample.echo |} _ eq_refl)
    as (H1 & _ & H3).
  split; [exact H1 | exact H3].
Defined.

(** X5 at a documentation string that starts with a line feed. *)
Lemma shadow_has_no_description :
  exists t,
    infer {| func := Sample2.echo_shadow |} = Return t /\ description t = "".
Proof.
  eexists. split; [reflexivity|].
  apply (description_is_empty_for_a_blank_first_line
           {| func := Sample2.echo_shadow |} _ eq_refl).
  eexists. split; [reflexivity|]. split; [discriminate | reflexivity].
Defined.

(* ------------------------------------------------------------------ *)
(** * Further facts on the handlers *)
(* ------------------------------------------------------------------ *)

Section MoreHandlerFacts.

Context {World : Type}.
Variable TerminalToolkit : kwargs -> World -> outcome (Toolkit World) * World.

Implicit Types (st : State World) (tk : Toolkit World) (f : Callable World).

(** The first callable of that name is the target, whatever follows. *)
Lemma find_target_first name (pre post : list (FunctionTool World)) ft :
  (forall p, In p pre -> c_name (func p) <> name) ->
  c_name (func ft) = name ->
  find_target name (pre ++ ft :: post) = Some (func ft).
Proof.
  intros Hpre Hft. induction pre as [|p pre IH]; simpl.
  - destruct (String.eqb_spec (c_name (func ft)) name); [reflexivity | contradiction].
  - destruct (String.eqb_spec (c_name (func p)) name) as [E|_].
    + exfalso. apply (Hpre p); [now left | exact E].
    + apply IH. intros q Hq. apply Hpre. now right.
Qed.

(** On a built registry, a call whose target is [f]: the answer is made
    from what [f] ends in, and the world is the one [f] leaves. *)
Lemma call_tool_found st tk name arguments f :
  terminal_toolkit st = Some tk ->
  find_target name (tk_tools tk) = Some f ->
  fst (call_tool TerminalToolkit name arguments st)
  = answer name (fst (c_call f arguments (world st)))
  /\ world (snd (call_tool TerminalToolkit name arguments st))
     = snd (c_call f arguments (world st)).
Proof.
  intros Htk Hfind.
  rewrite (call_tool_ready _ name arguments st st tt (ensure_ready _ _ _ Htk)).
  destruct (c_call f arguments (world st)) as [[v|e] w'] eqn:Hcall.
  - rewrite (try_returns name arguments st tk f v w' Htk Hfind Hcall). auto.
  - rewrite (try_raises name arguments st tk f e w' Htk Hfind Hcall). simpl.
    destruct (is_Exception e); auto.
Qed.

Lemma call_tool_missing st tk name arguments :
  terminal_toolkit st = Some tk ->
  find_target name (tk_tools tk) = None ->
  call_tool TerminalToolkit name arguments st
  = (Return (text_block ("Tool '" ++ name ++ "' not found")), st).
Proof.
  intros Htk Hfind.
  rewrite (call_tool_ready _ name arguments st st tt (ensure_ready _ _ _ Htk)).
  now apply try_not_found with tk.
Qed.

Lemma infer_all_stops (pre post : list (FunctionTool World)) ft e :
  (forall p, In p pre -> exists t, infer p = Return t) ->
  infer ft = Raise e ->
  infer_all (pre ++ ft :: post) = Raise e.
Proof.
  intros Hpre Hft. induction pre as [|p pre IH]; simpl.
  - now rewrite Hft.
  - destruct (Hpre p (or_introl eq_refl)) as [t Ht]. rewrite Ht.
    rewrite IH; [reflexivity|]. intros q Hq. apply Hpre. now right.
Qed.

(** The [try] statement logs errors only. *)
Lemma try_announcements name arguments st :
  announcements (snd (call_tool_try name arguments st)) = announcements st.
Proof.
  assert (Herr : forall msg (s : State World),
            announcements (add_log ERROR msg s) = announcements s).
  { intros msg s. unfold announcements. simpl.
    rewrite filter_app, length_app. simpl. apply Nat.add_0_r. }
  destruct (terminal_toolkit st) as [tk|] eqn:Htk.
  - destruct (find_target name (tk_tools tk)) as [f|] eqn:Hfind.
    + destruct (c_call f arguments (world st)) as [[v|e] w'] eqn:Hcall.
      * now rewrite (try_returns _ _ _ _ _ _ _ Htk Hfind Hcall).
      * rewrite (try_raises _ _ _ _ _ _ _ Htk Hfind Hcall).
        destruct (is_Exception e); simpl; [now rewrite Herr | reflexivity].
    + now rewrite (try_not_found _ arguments _ _ Htk Hfind).
  - cbv [call_tool_try try_except bind get_tools gets ret raise logger modify].
    rewrite Htk. simpl. apply Herr.
Qed.

Lemma ensure_announcements st :
  announcements st = length (factory_calls st) ->
  announcements (snd (ensure_toolkit TerminalToolkit st))
  = length (factory_calls (snd (ensure_toolkit TerminalToolkit st))).
Proof.
  intros H.
  assert (Hstep : forall s : State World,
            length (filter is_announcement
                      (log s ++ [(INFO, "Initializing Terminal Toolkit")])%list)
            = S (announcements s)).
  { intros s. rewrite filter_app, length_app. simpl. apply Nat.add_1_r. }
  destruct (ensure_cases TerminalToolkit st)
    as [(tk & _ & E)|[(tk & w' & _ & _ & E)|(e & w' & _ & _ & E)]];
    rewrite E; simpl; [exact H | |];
    unfold announcements; simpl; rewrite Hstep, length_app, H; simpl;
    now rewrite Nat.add_1_r.
Qed.

Lemma handle_announcements ev st :
  announcements st = length (factory_calls st) ->
  announcements (handle TerminalToolkit ev st)
  = length (factory_calls (handle TerminalToolkit ev st)).
Proof.
  intros H. pose proof (ensure_announcements st H) as He.
  destruct ev as [|name arguments|kw]; simpl.
  - now rewrite list_tools_state.
  - destruct (ensure_toolkit TerminalToolkit st) as [[u|e] st1] eqn:E.
    + rewrite (call_tool_ready _ _ _ _ _ _ E). simpl in He.
      rewrite try_announcements.
      destruct (try_shape name arguments st1) as (r & st' & Et & _ & _ & Hc & _).
      rewrite Et. simpl. now rewrite Hc.
    + now rewrite (call_tool_unready _ _ _ _ _ _ E).
  - exact H.
Qed.

(** A request that finds the registry unbuilt and the constructor
    raising leaves the state the failed initialization leaves. *)
Lemma handle_failed req st e w' :
  is_request req = true ->
  terminal_toolkit st = None ->
  TerminalToolkit (toolkit_kwargs st) (world st) = (Raise e, w') ->
  handle TerminalToolkit req st = failed_state w' st.
Proof.
  intros Hreq Hnone HF. pose proof (ensure_fails _ _ _ _ Hnone HF) as He.
  destruct req as [|name arguments|kw]; simpl; [| |discriminate].
  - now rewrite list_tools_unfold, He.
  - now rewrite (call_tool_unready _ _ _ _ _ _ He).
Qed.

End MoreHandlerFacts.

(* ------------------------------------------------------------------ *)
(** * Further properties of the dispatch and of the registry *)
(* ------------------------------------------------------------------ *)

Section MoreDispatchProperties.

Context {World : Type}.
Variable TerminalToolkit : kwargs -> World -> outcome (Toolkit World) * World.

Implicit Types (st : State World) (tk : Toolkit World) (f : Callable World).

(** X6.  Every name a listing shows can be called: for a descriptor of
    a listing, [call_tool] with its name finds a registered callable of
    that name and answers from what this callable ends in, never with
    the not-found text. *)
Theorem listed_name_is_dispatched st tools st' (t : Tool) (arguments : kwargs) :
  list_tools TerminalToolkit st = (Return tools, st') ->
  In t tools ->
  exists f,
    find_target (name t) (registered st') = Some f
    /\ c_name f = name t
    /\ fst (call_tool TerminalToolkit (name t) arguments st')
       = answer (name t) (fst (c_call f arguments (world st'))).
Proof.
  intros Hl Hin.
  destruct (listed_descriptor _ _ _ _ _ Hl Hin) as (ft & Hft & Hi).
  pose proof (infer_name ft t Hi) as Hname.
  unfold registered in *.
  destruct (terminal_toolkit st') as [tk|] eqn:Htk; [|contradiction].
  destruct (find_target (name t) (tk_tools tk)) as [f|] eqn:Hfind.
  - exists f. split; [reflexivity|].
    split; [apply (find_target_Some _ _ _ Hfind)|].
    apply (call_tool_found TerminalToolkit st' tk (name t) arguments f Htk Hfind).
  - exfalso. apply (proj1 (find_target_None _ _) Hfind ft Hft). now symmetry.
Qed.

(** X7.  On a built registry [call_tool] calls the first registered
    callable that bears the name, and no other: the answer is made from
    what that callable ends in and the world is the one it leaves, also
    when a later callable bears the same name. *)
Theorem call_tool_invokes_the_first_match
  st tk (pre post : list (FunctionTool World)) (ft : FunctionTool World)
  (name : string) (arguments : kwargs) :
  terminal_toolkit st = Some tk ->
  tk_tools tk = (pre ++ ft :: post)%list ->
  (forall p, In p pre -> c_name (func p) <> name) ->
  c_name (func ft) = name ->
  fst (call_tool TerminalToolkit name arguments st)
  = answer name (fst (c_call (func ft) arguments (world st)))
  /\ world (snd (call_tool TerminalToolkit name arguments st))
     = snd (c_call (func ft) arguments (world st)).
Proof.
  intros Htk Htools Hpre Hft.
  apply (call_tool_found TerminalToolkit st tk name arguments (func ft) Htk).
  rewrite Htools. now apply find_target_first.
Qed.

(** X8.  On a built registry a listing changes nothing, neither the
    world nor the log, and it shows the same descriptors whatever
    requests and configuration changes were handled before it. *)
Theorem listing_is_stable st tk (evs : list event) :
  terminal_toolkit st = Some tk ->
  snd (list_tools TerminalToolkit st) = st
  /\ fst (list_tools TerminalToolkit (serve TerminalToolkit evs st))
     = fst (list_tools TerminalToolkit st).
Proof.
  intros Htk.
  destruct (built_forever TerminalToolkit evs st tk Htk) as [Hkeep _].
  rewrite !list_tools_unfold.
  rewrite (ensure_ready _ _ _ Htk), (ensure_ready _ _ _ Hkeep).
  unfold registered. now rewrite Htk, Hkeep.
Qed.

(** X9.  A listing is all or nothing: when the inference raises for one
    registered callable, and returns for those before it, [list_tools]
    raises that exception and shows no descriptor at all. *)
Theorem listing_is_all_or_nothing
  st tk (pre post : list (FunctionTool World)) (ft : FunctionTool World) (e : PyExc) :
  terminal_toolkit st = Some tk ->
  tk_tools tk = (pre ++ ft :: post)%list ->
  (forall p, In p pre -> exists t, infer p = Return t) ->
  infer ft = Raise e ->
  list_tools TerminalToolkit st = (Raise e, st).
Proof.
  intros Htk Htools Hpre Hft.
  rewrite list_tools_unfold, (ensure_ready _ _ _ Htk).
  unfold registered. rewrite Htk, Htools.
  now rewrite (infer_all_stops pre post ft e Hpre Hft).
Qed.

(** X10.  On a built registry the answer of [call_tool] and the world it
    leaves depend on the toolkit, the world, the name and the arguments
    only: not on the log, on the configuration or on earlier calls. *)
Theorem answer_depends_on_toolkit_and_world st st2 tk
  (name : string) (arguments : kwargs) :
  terminal_toolkit st = Some tk ->
  terminal_toolkit st2 = Some tk ->
  world st = world st2 ->
  fst (call_tool TerminalToolkit name arguments st)
  = fst (call_tool TerminalToolkit name arguments st2)
  /\ world (snd (call_tool TerminalToolkit name arguments st))
     = world (snd (call_tool TerminalToolkit name arguments st2)).
Proof.
  intros Htk Htk2 Hw.
  destruct (find_target name (tk_tools tk)) as [f|] eqn:Hfind.
  - destruct (call_tool_found TerminalToolkit st tk name arguments f Htk Hfind)
      as [H1 H2].
    destruct (call_tool_found TerminalToolkit st2 tk name arguments f Htk2 Hfind)
      as [H3 H4].
    rewrite H1, H2, H3, H4, Hw. auto.
  - rewrite (call_tool_missing TerminalToolkit st tk name arguments Htk Hfind).
    rewrite (call_tool_missing TerminalToolkit st2 tk name arguments Htk2 Hfind).
    auto.
Qed.

(** X11.  From the start of the process and over any events, the log
    holds one ["Initializing Terminal Toolkit"] record per constructor
    call, successful or not, and no other such record. *)
Theorem every_constructor_call_is_announced (w : World) (evs : list event) :
  announcements (serve TerminalToolkit evs (initial_state w))
  = length (factory_calls (serve TerminalToolkit evs (initial_state w))).
Proof.
  assert (H : forall l st, announcements st = length (factory_calls st) ->
              announcements (serve TerminalToolkit l st)
              = length (factory_calls (serve TerminalToolkit l st))).
  { induction l as [|ev rest IH]; intros st Hst; [exact Hst|].
    apply (IH _ (handle_announcements TerminalToolkit ev st Hst)). }
  apply H. reflexivity.
Qed.

(** X12.  A failed construction is tried again by the next request, with
    the configuration in force then: a configuration assigned after a
    failure is the one the toolkit is built with. *)
Theorem later_configuration_is_used_after_a_failure
  st (r1 r2 : event) (kw2 : kwargs) (e : PyExc) (w1 w2 : World) tk :
  terminal_toolkit st = None ->
  is_request r1 = true ->
  is_request r2 = true ->
  TerminalToolkit (toolkit_kwargs st) (world st) = (Raise e, w1) ->
  TerminalToolkit kw2 w1 = (Return tk, w2) ->
  terminal_toolkit (serve TerminalToolkit [r1; SetKwargs kw2; r2] st) = Some tk
  /\ factory_calls (serve TerminalToolkit [r1; SetKwargs kw2; r2] st)
     = (factory_calls st ++ [(toolkit_kwargs st, false); (kw2, true)])%list.
Proof.
  intros Hnone Hr1 Hr2 HF1 HF2.
  unfold serve. simpl.
  rewrite (handle_failed TerminalToolkit r1 st e w1 Hr1 Hnone HF1).
  set (st1 := set_toolkit_kwargs kw2 (failed_state w1 st)).
  assert (Hn1 : terminal_toolkit st1 = None) by exact Hnone.
  destruct (first_request TerminalToolkit r2 st1 Hr2 Hn1) as [Hc Ht].
  simpl in Hc, Ht. rewrite HF2 in Hc, Ht. simpl in Hc, Ht.
  split; [exact Ht|]. rewrite Hc, <- app_assoc. reflexivity.
Qed.

End MoreDispatchProperties.

(** X6 at the sample listing: ["boom"] is listed, and calling it gives
    the text of its error, not the not-found text. *)
Lemma boom_is_listed_and_dispatched :
  exists f,
    find_target "boom" (registered Sample.ready) = Some f
    /\ fst (call_tool Sample.factory "boom" [] Sample.ready)
       = Return [ {| content_type := "text";
                     text := "Error calling tool boom: bad input" |} ].
Proof.
  destruct (listed_name_is_dispatched Sample.factory Sample.ready
              (match fst (list_tools Sample.factory Sample.ready) with
               | Return tools => tools
               | Raise _ => []
               end)
              Sample.ready
              {| name := "boom"; description := "Execute boom";
                 inputSchema := {| schema_type := "object"; properties := [];
                                   required := [] |} |}
              [])
    as (f & Hfind & _ & Hcall).
  - reflexivity.
  - simpl. right. right. left. reflexivity.
  - exists f. split; [exact Hfind|].
    simpl in Hfind. injection Hfind as <-. exact Hcall.
Defined.

(** X7 at a toolkit with two callables named ["echo"]: the first one
    answers. *)
Lemma first_echo_answers :
  fst (call_tool Sample.factory "echo" [("x", VStr "hi")] Sample2.shadow_ready)
  = Return [ {| content_type := "text"; text := "hi" |} ].
Proof.
  destruct (call_tool_invokes_the_first_match Sample.factory Sample2.shadow_ready
              Sample2.shadow_toolkit
              [ {| func := Sample.boom |} ] [ {| func := Sample2.echo_shadow |} ]
              {| func := Sample.echo |} "echo" [("x", VStr "hi")])
    as [H _].
  - reflexivity.
  - reflexivity.
  - intros p [<-|[]]. discriminate.
  - reflexivity.
  - exact H.
Defined.

(** X8 at the sample registry, after a failing call and a change of the
    configuration. *)
Lemma sample_listing_is_stable :
  fst (list_tools Sample.factory
         (serve Sample.factory [CallTool "boom" []; SetKwargs [("timeout", VInt 5)]]
            Sample.ready))
  = fst (list_tools Sample.factory Sample.ready).
Proof.
  apply (listing_is_stable Sample.factory Sample.ready Sample.toolkit). reflexivity.
Defined.

(** X9 at a toolkit whose second callable is a bound method without
    parameters. *)
Lemma broken_listing_raises :
  list_tools Sample.factory Sample2.broken_ready
  = (Raise (ValueError "invalid method signature"), Sample2.broken_ready).
Proof.
  apply (listing_is_all_or_nothing Sample.factory Sample2.broken_ready
           Sample2.broken_toolkit
           [ {| func := Sample.echo |} ] [ {| func := Sample.boom |} ]
           {| func := Sample2.broken |}); try reflexivity.
  intros p [<-|[]]. eexists. reflexivity.
Defined.

(** X10 at two states that differ in log and configuration. *)
Lemma echo_ignores_log_and_configuration :
  fst (call_tool Sample.factory "echo" [("x", VStr "hi")]
         (snd (call_tool Sample.factory "boom" []
                 (set_toolkit_kwargs [("timeout", VInt 5)] Sample.ready))))
  = fst (call_tool Sample.factory "echo" [("x", VStr "hi")] Sample.ready).
Proof.
  apply (answer_depends_on_toolkit_and_world Sample.factory _ Sample.ready
           Sample.toolkit); reflexivity.
Defined.

(** X12 at a constructor that needs a working directory. *)
Lemma working_directory_supplied_late :
  terminal_toolkit
    (serve Sample2.picky_factory
       [ListTools; SetKwargs [("working_directory", VStr "/tmp")]; CallTool "nope" []]
       (initial_state tt))
  = Some Sample.toolkit.
Proof.
  apply (later_configuration_is_used_after_a_failure Sample2.picky_factory
           (initial_state tt) ListTools (CallTool "nope" [])
           [("working_directory", VStr "/tmp")]
           (ValueError "bad configuration") tt tt Sample.toolkit);
    reflexivity.
Defined.

(* ------------------------------------------------------------------ *)
(** * Properties of the start-up *)
(* ------------------------------------------------------------------ *)

Section StartupFacts.

Context {World : Type}.
Variable parser_parse_args : outcome Namespace.
Variable stdio_server : M (State World) unit.

Implicit Types (st : State World).

(** What the two [except] clauses of [async_main] make of an exception
    raised in state [st]. *)
Lemma main_clauses (e : PyExc) st :
  first_clause
    [ (is_KeyboardInterrupt,
       fun _ => logger INFO "Server interrupted by user");
      (is_Exception,
       fun e => (logger ERROR ("Server error: " ++ exc_str e) ;;;
                 raise (SystemExit "1"))%py) ] e st
  = if is_KeyboardInterrupt e
    then (Return tt, add_log INFO "Server interrupted by user" st)
    else if is_Exception e
         then (Raise (SystemExit "1"),
               add_log ERROR ("Server error: " ++ exc_str e) st)
         else (Raise e, st).
Proof.
  simpl. destruct (is_KeyboardInterrupt e); [reflexivity|].
  destruct (is_Exception e); reflexivity.
Qed.

Lemma main_unfold st :
  main parser_parse_args stdio_server st
  = match parse_args parser_parse_args with
    | Return args =>
        match stdio_server (started args st) with
        | (Return u, st') => (Return u, st')
        | (Raise e, st') =>
            if is_KeyboardInterrupt e
            then (Return tt, add_log INFO "Server interrupted by user" st')
            else if is_Exception e
                 then (Raise (SystemExit "1"),
                       add_log ERROR ("Server error: " ++ exc_str e) st')
                 else (Raise e, st')
        end
    | Raise e =>
        if is_KeyboardInterrupt e
        then (Return tt, add_log INFO "Server interrupted by user" st)
        else if is_Exception e
             then (Raise (SystemExit "1"),
                   add_log ERROR ("Server error: " ++ exc_str e) st)
             else (Raise e, st)
    end.
Proof.
  unfold main, async_main, try_clauses.
  cbv [bind modify logger].
  destruct (parse_args parser_parse_args) as [args|e].
  - change (add_log INFO "Starting CAMEL Terminal Toolkit MCP Server"
              (set_toolkit_kwargs (pa_toolkit_kwargs args) st))
      with (started args st).
    destruct (stdio_server (started args st)) as [[u|e] st']; [reflexivity|].
    apply main_clauses.
  - apply main_clauses.
Qed.

End StartupFacts.

Section StartupProperties.

Context {World : Type}.

Implicit Types (st : State World).

(** X13.  The configuration [parse_args] hands to the toolkit holds
    ["timeout"], ["safe_mode"] and ["interactive"] with the values of
    the command line, then ["working_directory"] when, and only when,
    that option is a non-empty string: an empty one is dropped like an
    absent one. *)
Theorem working_directory_is_passed_when_not_empty (args : Namespace) :
  Dict.keys (pa_toolkit_kwargs (convert_args args))
  = (["timeout"; "safe_mode"; "interactive"]
       ++ match ns_working_directory args with
          | Some (String _ _) => ["working_directory"]
          | Some EmptyString | None => []
          end)%list
  /\ Dict.get (pa_toolkit_kwargs (convert_args args)) "timeout"
     = Some (ns_timeout args)
  /\ Dict.get (pa_toolkit_kwargs (convert_args args)) "safe_mode"
     = Some (VBool (ns_safe_mode args))
  /\ Dict.get (pa_toolkit_kwargs (convert_args args)) "interactive"
     = Some (VBool (ns_interactive args))
  /\ Dict.get (pa_toolkit_kwargs (convert_args args)) "working_directory"
     = match ns_working_directory args with
       | Some (String c d) => Some (VStr (String c d))
       | Some EmptyString | None => None
       end.
Proof.
  destruct args as [[[|c d]|] tm sm ia tr]; repeat split.
Qed.

(** X14.  When the transport raises, [main] ends as its [except]
    clauses say: on [KeyboardInterrupt] it logs the interruption and
    returns; on an exception deriving from [Exception] it logs
    ["Server error: <str(e)>"] and raises [SystemExit(1)]; any other
    exception goes on unlogged. *)
Theorem main_ends_by_the_class_of_the_failure
  (args : Namespace) (stdio_server : M (State World) unit) st (e : PyExc) st' :
  stdio_server (started (convert_args args) st) = (Raise e, st') ->
  main (Return args) stdio_server st
  = if is_KeyboardInterrupt e
    then (Return tt, add_log INFO "Server interrupted by user" st')
    else if is_Exception e
         then (Raise (SystemExit "1"),
               add_log ERROR ("Server error: " ++ exc_str e) st')
         else (Raise e, st').
Proof.
  intros H. rewrite main_unfold. simpl. now rewrite H.
Qed.

(** X15.  Whatever the command line parser and the transport do, [main]
    never ends in an exception that derives from [Exception]: it
    returns, or it raises [SystemExit] or another exception outside
    [Exception]. *)
Theorem main_never_ends_in_an_Exception
  (parser_parse_args : outcome Namespace) (stdio_server : M (State World) unit) st :
  match fst (main parser_parse_args stdio_server st) with
  | Return _ => True
  | Raise e => is_Exception e = false
  end.
Proof.
  rewrite main_unfold.
  assert (Hcl : forall e (s : State World),
            match fst (if is_KeyboardInterrupt e
                       then (Return tt, add_log INFO "Server interrupted by user" s)
                       else if is_Exception e
                            then (Raise (SystemExit "1"),
                                  add_log ERROR ("Server error: " ++ exc_str e) s)
                            else (@Raise unit e, s)) with
            | Return _ => True
            | Raise e' => is_Exception e' = false
            end).
  { intros e s. destruct (is_KeyboardInterrupt e); [exact I|].
    destruct (is_Exception e) eqn:He; simpl; [reflexivity | exact He]. }
  destruct (parse_args parser_parse_args) as [args|e]; [|apply Hcl].
  destruct (stdio_server (started args st)) as [[u|e] st']; [exact I | apply Hcl].
Qed.

(** X16.  When the command line parser raises an exception outside
    [Exception] other than [KeyboardInterrupt] (the [SystemExit] of a
    rejected command line or of [--help]), [main] raises it unchanged:
    the configuration is not assigned, nothing is logged and the
    transport is not started. *)
Theorem bad_command_line_ends_main
  (stdio_server : M (State World) unit) st (e : PyExc) :
  is_KeyboardInterrupt e = false ->
  is_Exception e = false ->
  main (Raise e) stdio_server st = (Raise e, st).
Proof.
  intros Hk He. rewrite main_unfold. simpl. now rewrite Hk, He.
Qed.


End StartupProperties.

(** X14 at a transport that raises [TypeError] at once. *)
Lemma failing_transport_exits_with_1 :
  exists st',
    main (Return Sample2.namespace) Sample2.failing_transport (initial_state tt)
    = (Raise (SystemExit "1"), st')
    /\ log st'
       = [ (INFO, "Starting CAMEL Terminal Toolkit MCP Server");
           (ERROR, "Server error: object is not awaitable") ].
Proof.
  eexists. split.
  - apply (main_ends_by_the_class_of_the_failure Sample2.namespace
             Sample2.failing_transport (initial_state tt)
             (Sample.TypeError "object is not awaitable") _ eq_refl).
  - reflexivity.
Defined.

(** X16 at the [SystemExit(2)] of a rejected command line. *)
Lemma rejected_command_line :
  main (Raise (SystemExit "2")) Sample2.failing_transport (initial_state tt)
  = (Raise (SystemExit "2"), initial_state tt).
Proof.
  apply (bad_command_line_ends_main Sample2.failing_transport (initial_state tt)
           (SystemExit "2")); reflexivity.
Defined.

